(** * NodesHub: a relay hub between test nodes

    Shallow embedding of [experiments/utils/nodes_hub.py].

    - Byte strings ([bytes]) are [list byte]; Python integers are [Z].
    - Dictionaries are stdpp [gmap]s; the asyncio transports and tasks a
      dictionary refers to live in a store indexed by identifiers, so that
      two tables naming the same object see the same flags.
    - A Python exception is a value of [exception]; code that may raise
      returns a [result].
    - The coroutines ([connect_nodes], the two [__handle_received_data]) are
      cut at their [await] points: one resumption runs from the point where
      the coroutine was suspended to its next suspension, return or raise.
    - [p2p_port] and [hash256] come from the test framework and are taken as
      parameters of the development.
    - Node indices are natural numbers (an index is in range when it is
      below [len(self.nodes)]); delays, floats in the source, are rationals
      and are only tested for presence and for being zero.
    - The [while] loop of [process_buffer] is run for at most [fuel] passes;
      [Diverged] says that the passes were used up. *)

From stdpp Require Import gmap list.
From Stdlib Require Import ZArith Strings.Byte QArith.QArith_base.

Open Scope Z_scope.

(** ** Python values and exceptions *)

Abbreviation bytes := (list byte).

#[global] Instance byte_eq_decision : EqDecision byte := Byte.byte_eq_dec.

(** A directed edge [(outbound_idx, inbound_idx)]. *)
Abbreviation edge := (nat * nat)%type.

Inductive exception :=
  | StructError                      (* struct.error from pack / unpack *)
  | KeyError                         (* dict[key] on a missing key *)
  | TypeError                        (* operation on None *)
  | IndexError                       (* list index out of range *)
  | RuntimeError (e : edge).         (* 'Connection ... already established' *)

#[global] Instance exception_eq_decision : EqDecision exception.
Proof. solve_decision. Defined.

Inductive result (A : Type) :=
  | Ok (a : A)
  | Raise (e : exception).
Arguments Ok {A} a.
Arguments Raise {A} e.

Definition bind {A B} (r : result A) (k : A -> result B) : result B :=
  match r with
  | Ok a => k a
  | Raise e => Raise e
  end.

Notation "x <- r ;; k" := (bind r (fun x => k))
  (at level 100, r at next level, right associativity).

(** What [process_buffer] hands back: a byte string, or [None] from a bare
    [return]. *)
Inductive pyval :=
  | PyNone
  | PyBytes (b : bytes).

(** ** Slices, [struct] and [bytes.split] *)

Module Py.

(** [len(l)] *)
Definition len {A} (l : list A) : Z := Z.of_nat (length l).

(** A slice bound is clamped as Python does: a negative bound counts from
    the end, and everything is cut to [0 .. len]. *)
Definition clamp (n i : Z) : Z :=
  if i <? 0 then Z.max 0 (i + n) else Z.min i n.

(** [l[lo:hi]]; a missing bound is [None]. *)
Definition slice {A} (lo hi : option Z) (l : list A) : list A :=
  let n := len l in
  let a := match lo with Some i => clamp n i | None => 0 end in
  let b := match hi with Some j => clamp n j | None => n end in
  take (Z.to_nat (b - a)) (drop (Z.to_nat a) l).

Definition byte_val (b : byte) : Z := Z.of_N (Byte.to_N b).

Definition byte_of_Z (z : Z) : byte :=
  match Byte.of_N (Z.to_N (z mod 256)) with
  | Some b => b
  | None => x00
  end.

(** [unpack("<i", s)[0]]: four bytes, little-endian, two's complement. *)
Definition unpack_le_i32 (s : bytes) : result Z :=
  match s with
  | [b0; b1; b2; b3] =>
      let u := byte_val b0 + 256 * byte_val b1
               + 65536 * byte_val b2 + 16777216 * byte_val b3 in
      Ok (if u <? 2147483648 then u else u - 4294967296)
  | _ => Raise StructError
  end.

(** The same four bytes read as an unsigned integer (format ["<I"]). *)
Definition le_u32 (s : bytes) : Z :=
  match s with
  | [b0; b1; b2; b3] =>
      byte_val b0 + 256 * byte_val b1
      + 65536 * byte_val b2 + 16777216 * byte_val b3
  | _ => 0
  end.

(** [unpack('!H', s)[0]]: two bytes, big-endian, unsigned. *)
Definition unpack_be_u16 (s : bytes) : result Z :=
  match s with
  | [hi; lo] => Ok (256 * byte_val hi + byte_val lo)
  | _ => Raise StructError
  end.

(** [pack('!H', v)]: raises unless [0 <= v <= 65535]. *)
Definition pack_be_u16 (v : Z) : result bytes :=
  if (0 <=? v) && (v <=? 65535)
  then Ok [byte_of_Z (v / 256); byte_of_Z v]
  else Raise StructError.

(** [s.split(b'\x00', 1)[0]]: the bytes before the first NUL. *)
Fixpoint before_nul (s : bytes) : bytes :=
  match s with
  | [] => []
  | b :: s' => if decide (b = x00) then [] else b :: before_nul s'
  end.

End Py.

(** ** Constants of the wire format *)

Definition MSG_HEADER_LENGTH : Z := 4 + 12 + 4 + 4.
Definition VERSION_PORT_OFFSET : Z := 4 + 8 + 8 + 26 + 8 + 16.

(** [b'version'] *)
Definition b_version : bytes := [x76; x65; x72; x73; x69; x6f; x6e].

(** ** Transports and tasks *)

(** An asyncio transport: whether [close()] was called on it, and what was
    written to it, oldest write first. *)
Record transport := mkTransport {
  closing : bool;
  written : list bytes
}.

(** An asyncio task, as far as [cancel()] and [cancelled()] see it. *)
Inductive task_state :=
  | TaskPending
  | TaskCancelRequested
  | TaskCancelled
  | TaskFinished.

Definition transport_close (t : transport) : transport :=
  {| closing := true; written := written t |}.

Definition transport_write (data : bytes) (t : transport) : transport :=
  {| closing := closing t; written := written t ++ [data] |}.

(** [task.cancel()]: only a task that is still running takes the request. *)
Definition task_cancel (t : task_state) : task_state :=
  match t with
  | TaskPending => TaskCancelRequested
  | other => other
  end.

Definition task_is_cancelled (t : task_state) : bool :=
  match t with
  | TaskCancelled => true
  | _ => false
  end.

(** A call [node.addnode(address, verb)]; the address is the hub's host and
    the recorded port. *)
Inductive addnode_verb := Add | Onetry.

Record rpc_call := mkRpc {
  rpc_node : nat;
  rpc_port : Z;
  rpc_verb : addnode_verb
}.

(** ** The hub *)

Record NodesHub := mkHub {
  nodes : nat;                                   (* len(self.nodes) *)
  node2node_delays : gmap edge Q;
  proxy_servers : nat;                           (* len(self.proxy_servers) *)
  relay_tasks : gmap edge nat;
  ports2node_map : gmap Z nat;
  sender2proxy_transports : gmap edge nat;
  proxy2receiver_transports : gmap edge nat;
  pending_connection : option edge;
  (* the objects the tables refer to *)
  transports : list transport;
  tasks : list task_state;
  rpc_log : list rpc_call
}.

(** [NodesHub.__init__] *)
Definition init (n : nat) : NodesHub :=
  {| nodes := n;
     node2node_delays := ∅;
     proxy_servers := 0%nat;
     relay_tasks := ∅;
     ports2node_map := ∅;
     sender2proxy_transports := ∅;
     proxy2receiver_transports := ∅;
     pending_connection := None;
     transports := [];
     tasks := [];
     rpc_log := [] |}.

Definition set_ports2node_map (m : gmap Z nat) (h : NodesHub) : NodesHub :=
  mkHub (nodes h) (node2node_delays h) (proxy_servers h) (relay_tasks h)
        m (sender2proxy_transports h) (proxy2receiver_transports h)
        (pending_connection h) (transports h) (tasks h) (rpc_log h).

Definition set_pending_connection (p : option edge) (h : NodesHub) : NodesHub :=
  mkHub (nodes h) (node2node_delays h) (proxy_servers h) (relay_tasks h)
        (ports2node_map h) (sender2proxy_transports h)
        (proxy2receiver_transports h) p (transports h) (tasks h) (rpc_log h).

Definition set_sender2proxy (m : gmap edge nat) (h : NodesHub) : NodesHub :=
  mkHub (nodes h) (node2node_delays h) (proxy_servers h) (relay_tasks h)
        (ports2node_map h) m (proxy2receiver_transports h)
        (pending_connection h) (transports h) (tasks h) (rpc_log h).

Definition set_proxy2receiver (m : gmap edge nat) (h : NodesHub) : NodesHub :=
  mkHub (nodes h) (node2node_delays h) (proxy_servers h) (relay_tasks h)
        (ports2node_map h) (sender2proxy_transports h) m
        (pending_connection h) (transports h) (tasks h) (rpc_log h).

Definition set_relay_tasks (m : gmap edge nat) (h : NodesHub) : NodesHub :=
  mkHub (nodes h) (node2node_delays h) (proxy_servers h) m
        (ports2node_map h) (sender2proxy_transports h)
        (proxy2receiver_transports h) (pending_connection h)
        (transports h) (tasks h) (rpc_log h).

Definition set_transports (ts : list transport) (h : NodesHub) : NodesHub :=
  mkHub (nodes h) (node2node_delays h) (proxy_servers h) (relay_tasks h)
        (ports2node_map h) (sender2proxy_transports h)
        (proxy2receiver_transports h) (pending_connection h)
        ts (tasks h) (rpc_log h).

Definition set_tasks (ts : list task_state) (h : NodesHub) : NodesHub :=
  mkHub (nodes h) (node2node_delays h) (proxy_servers h) (relay_tasks h)
        (ports2node_map h) (sender2proxy_transports h)
        (proxy2receiver_transports h) (pending_connection h)
        (transports h) ts (rpc_log h).

Definition set_rpc_log (l : list rpc_call) (h : NodesHub) : NodesHub :=
  mkHub (nodes h) (node2node_delays h) (proxy_servers h) (relay_tasks h)
        (ports2node_map h) (sender2proxy_transports h)
        (proxy2receiver_transports h) (pending_connection h)
        (transports h) (tasks h) l.

Definition set_node2node_delays (m : gmap edge Q) (h : NodesHub) : NodesHub :=
  mkHub (nodes h) m (proxy_servers h) (relay_tasks h)
        (ports2node_map h) (sender2proxy_transports h)
        (proxy2receiver_transports h) (pending_connection h)
        (transports h) (tasks h) (rpc_log h).

Definition set_proxy_servers (n : nat) (h : NodesHub) : NodesHub :=
  mkHub (nodes h) (node2node_delays h) n (relay_tasks h)
        (ports2node_map h) (sender2proxy_transports h)
        (proxy2receiver_transports h) (pending_connection h)
        (transports h) (tasks h) (rpc_log h).

(** [transport.close()] on the object with identifier [tid], guarded by
    [not transport.is_closing()]. *)
Definition close_unless_closing (tid : nat) (h : NodesHub) : NodesHub :=
  match transports h !! tid with
  | Some t =>
      if closing t then h
      else set_transports (<[tid := transport_close t]> (transports h)) h
  | None => h
  end.

(** [task.cancel()], guarded by [not task.cancelled()]. *)
Definition cancel_unless_cancelled (k : nat) (h : NodesHub) : NodesHub :=
  match tasks h !! k with
  | Some t =>
      if task_is_cancelled t then h
      else set_tasks (<[k := task_cancel t]> (tasks h)) h
  | None => h
  end.

(** [transport.write(data)] *)
Definition write_to (tid : nat) (data : bytes) (h : NodesHub) : NodesHub :=
  set_transports (alter (transport_write data) tid (transports h)) h.

(** The outcome of one pass through the body of the [while] loop of
    [process_buffer]. *)
Inductive frame_step :=
  | Return (v : pyval)                    (* a [return] statement *)
  | Written (out : bytes) (rest : bytes)  (* [transport.write(out)], then
                                             [buffer = rest] *)
  | Fail (e : exception).

(** How a call of [process_buffer] ends. *)
Inductive outcome :=
  | Returned (v : pyval)
  | Raised (e : exception)
  | Diverged.                             (* the loop is still running *)

(** The [await] points of [connect_nodes], where the coroutine can be
    resumed. *)
Inductive connect_await :=
  | AwaitProxies        (* at the test of the first [while] *)
  | AwaitLock           (* at the test of the second [while] *)
  | AwaitTransports.    (* at the test of the third [while] *)

(** Where a resumption of [connect_nodes] ends. *)
Inductive connect_state :=
  | ConnectSuspended (a : connect_await)
  | ConnectDone
  | ConnectRaised (e : exception).

(** The [await] points of [__handle_received_data]. *)
Inductive handler_await :=
  | AwaitPeer           (* at the test of the [while] *)
  | AwaitDelay.         (* in [asyncio_sleep(delay)] *)

(** Where a resumption of [__handle_received_data] ends. *)
Inductive handler_state :=
  | HandlerSuspended (a : handler_await)
  | HandlerDone
  | HandlerRaised (e : exception)
  | HandlerDiverged.    (* stuck inside [process_buffer] *)

(** [NodeProxy]: the protocol object of a connection accepted by a proxy. *)
Record NodeProxy := mkNodeProxy {
  np_sender2receiver_pair : option edge;
  np_recvbuf : pyval
}.

(** [ProxyRelay]: the protocol object of the hub's connection to a node. *)
Record ProxyRelay := mkProxyRelay {
  pr_sender2receiver_pair : edge;
  pr_recvbuf : pyval
}.

Definition pr_receiver2sender_pair (r : ProxyRelay) : edge :=
  (snd (pr_sender2receiver_pair r), fst (pr_sender2receiver_pair r)).

Section Hub.

(** [test_framework.util.p2p_port] *)
Variable p2p_port : nat -> Z.

(** [test_framework.messages.hash256]: SHA-256 applied twice. *)
Variable hash256 : bytes -> bytes.

Definition get_node_port (node_idx : nat) : Z := p2p_port node_idx.

Definition get_proxy_port (h : NodesHub) (node_idx : nat) : Z :=
  p2p_port (nodes h + 1 + node_idx)%nat.

(** One pass of the [for] loop of [sync_start_proxies]. *)
Definition register_ports (h : NodesHub) (m : gmap Z nat) (node_id : nat)
  : gmap Z nat :=
  <[get_proxy_port h node_id := node_id]>
    (<[get_node_port node_id := node_id]> m).

(** [sync_start_proxies], when every listener could be bound. *)
Definition sync_start_proxies (h : NodesHub) : NodesHub :=
  let m := foldl (register_ports h) (ports2node_map h) (seq 0 (nodes h)) in
  set_proxy_servers (nodes h) (set_ports2node_map m h).

Definition set_nodes_delay (h : NodesHub) (outbound_idx inbound_idx : nat)
    (delay : Q) : NodesHub :=
  if Qeq_bool delay 0
  then set_node2node_delays
         (delete (outbound_idx, inbound_idx) (node2node_delays h)) h
  else set_node2node_delays
         (<[(outbound_idx, inbound_idx) := delay]> (node2node_delays h)) h.

Definition disconnect_nodes (h : NodesHub) (outbound_idx inbound_idx : nat)
  : NodesHub :=
  let e := (outbound_idx, inbound_idx) in
  let sender2proxy_transport := sender2proxy_transports h !! e in
  let proxy2receiver_transport := proxy2receiver_transports h !! e in
  let relay_task := relay_tasks h !! e in
  let h1 := match sender2proxy_transport with
            | Some tid => close_unless_closing tid h
            | None => h
            end in
  let h2 := match proxy2receiver_transport with
            | Some tid => close_unless_closing tid h1
            | None => h1
            end in
  let h3 := match relay_task with
            | Some k => cancel_unless_cancelled k h2
            | None => h2
            end in
  (* Removing references *)
  let h4 := set_sender2proxy (delete e (sender2proxy_transports h3)) h3 in
  let h5 := set_proxy2receiver (delete e (proxy2receiver_transports h4)) h4 in
  set_relay_tasks (delete e (relay_tasks h5)) h5.

Definition connect_sender_to_proxy (h : NodesHub)
    (outbound_idx inbound_idx : nat) : result NodesHub :=
  if decide (outbound_idx < nodes h)%nat then
    let proxy_port := get_proxy_port h inbound_idx in
    Ok (set_rpc_log (rpc_log h ++ [mkRpc outbound_idx proxy_port Add;
                                   mkRpc outbound_idx proxy_port Onetry]) h)
  else Raise IndexError.

(** The new task gets the next free identifier. *)
Definition connect_proxy_to_receiver (h : NodesHub)
    (outbound_idx inbound_idx : nat) : NodesHub :=
  let k := length (tasks h) in
  let h1 := set_tasks (tasks h ++ [TaskPending]) h in
  set_relay_tasks (<[(outbound_idx, inbound_idx) := k]> (relay_tasks h1)) h1.

(** [connect_nodes] from the test of its third [while]. *)
Definition connect_from_transports (h : NodesHub)
  : NodesHub * connect_state :=
  match pending_connection h with
  | Some e =>
      if decide (sender2proxy_transports h !! e = None
                 \/ proxy2receiver_transports h !! e = None)
      then (h, ConnectSuspended AwaitTransports)
      else (set_pending_connection None h, ConnectDone)
  | None => (h, ConnectSuspended AwaitTransports)
                                       (* [None] is in neither table *)
  end.

(** [connect_nodes] from the test of its second [while]. *)
Definition connect_from_lock (h : NodesHub) (outbound_idx inbound_idx : nat)
  : NodesHub * connect_state :=
  match pending_connection h with
  | Some _ => (h, ConnectSuspended AwaitLock)
  | None =>
      let e := (outbound_idx, inbound_idx) in
      let h1 := set_pending_connection (Some e) h in
      if decide (is_Some (sender2proxy_transports h1 !! e)
                 \/ is_Some (proxy2receiver_transports h1 !! e))
      then (h1, ConnectRaised (RuntimeError e))
      else
        match connect_sender_to_proxy h1 outbound_idx inbound_idx with
        | Raise err => (h1, ConnectRaised err)
        | Ok h2 =>
            connect_from_transports
              (connect_proxy_to_receiver h2 outbound_idx inbound_idx)
        end
  end.

(** [connect_nodes] from its start, which is the test of its first
    [while]. *)
Definition connect_from_proxies (h : NodesHub)
    (outbound_idx inbound_idx : nat) : NodesHub * connect_state :=
  if decide (proxy_servers h < nodes h)%nat
  then (h, ConnectSuspended AwaitProxies)
  else connect_from_lock h outbound_idx inbound_idx.

(** One resumption of the coroutine [connect_nodes(outbound_idx,
    inbound_idx)] from the point [a]: it runs to the next [await], to the
    end, or to a [raise]. The coroutine starts at [AwaitProxies]. *)
Definition connect_nodes (h : NodesHub) (a : connect_await)
    (outbound_idx inbound_idx : nat) : NodesHub * connect_state :=
  match a with
  | AwaitProxies => connect_from_proxies h outbound_idx inbound_idx
  | AwaitLock => connect_from_lock h outbound_idx inbound_idx
  | AwaitTransports => connect_from_transports h
  end.

(** The body of the [while] loop of [process_buffer], on the current value
    of [buffer]. *)
Definition process_frame (h : NodesHub) (buffer : bytes) : frame_step :=
  if Py.len buffer >? MSG_HEADER_LENGTH then
    match Py.unpack_le_i32
            (Py.slice (Some (4 + 12)) (Some (4 + 12 + 4)) buffer) with
    | Raise e => Fail e
    | Ok msglen =>
        if Py.len buffer <? MSG_HEADER_LENGTH + msglen then Return PyNone
        else
          let command :=
            Py.before_nul (Py.slice (Some 4) (Some (4 + 12)) buffer) in
          let rest := Py.slice (Some (MSG_HEADER_LENGTH + msglen)) None buffer in
          if decide (b_version = command) then
            let msg := Py.slice (Some MSG_HEADER_LENGTH)
                                (Some (MSG_HEADER_LENGTH + msglen)) buffer in
            let rewritten :=
              node_port <- Py.unpack_be_u16
                             (Py.slice (Some VERSION_PORT_OFFSET)
                                       (Some (VERSION_PORT_OFFSET + 2)) msg);;
              proxy_port <- (if decide (node_port <> 0) then
                               match ports2node_map h !! node_port with
                               | Some node => Ok (get_proxy_port h node)
                               | None => Raise KeyError
                               end
                             else Ok 0);;
              packed <- Py.pack_be_u16 proxy_port;;
              Ok (Py.slice None (Some VERSION_PORT_OFFSET) msg
                  ++ packed
                  ++ Py.slice (Some (VERSION_PORT_OFFSET + 2)) None msg) in
            match rewritten with
            | Raise e => Fail e
            | Ok msg' =>
                let msg_checksum := Py.slice None (Some 4) (hash256 msg') in
                let new_header :=
                  Py.slice None (Some (MSG_HEADER_LENGTH - 4)) buffer
                  ++ msg_checksum in
                Written (new_header ++ msg') rest
            end
          else
            Written
              (Py.slice None (Some (MSG_HEADER_LENGTH + msglen)) buffer) rest
    end
  else Return (PyBytes buffer).

(** [process_buffer(buffer, transport)], the transport given by its
    identifier; [fuel] bounds the number of passes through the loop. *)
Fixpoint process_buffer (fuel : nat) (h : NodesHub) (buffer : bytes)
    (tid : nat) : NodesHub * outcome :=
  match fuel with
  | O => (h, Diverged)
  | S fuel' =>
      match process_frame h buffer with
      | Return v => (h, Returned v)
      | Fail e => (h, Raised e)
      | Written out rest => process_buffer fuel' (write_to tid out h) rest tid
      end
  end.

(** The byte strings a call of [process_buffer] writes, in order. *)
Fixpoint scanner_output (fuel : nat) (h : NodesHub) (buffer : bytes)
  : list bytes :=
  match fuel with
  | O => []
  | S fuel' =>
      match process_frame h buffer with
      | Written out rest => out :: scanner_output fuel' h rest
      | _ => []
      end
  end.

(** [consumed h buffer outs buffer']: starting from [buffer], the loop of
    [process_buffer] makes [length outs] passes that write, one after the
    other, the byte strings [outs], and is then at its test with [buffer']
    as the value of [buffer]. *)
Inductive consumed (h : NodesHub) : bytes -> list bytes -> bytes -> Prop :=
  | consumed_nil (buffer : bytes) : consumed h buffer [] buffer
  | consumed_cons (buffer out rest : bytes) (outs : list bytes)
      (buffer' : bytes) :
      process_frame h buffer = Written out rest ->
      consumed h rest outs buffer' ->
      consumed h buffer (out :: outs) buffer'.

(** ** The protocol classes *)

(** [pair in table], where [pair] may still be [None]. *)
Definition pair_in (pair : option edge) (table : gmap edge nat) : bool :=
  match pair with
  | Some e => bool_decide (is_Some (table !! e))
  | None => false
  end.

Definition pair_delayed (pair : option edge) (h : NodesHub) : bool :=
  match pair with
  | Some e => bool_decide (is_Some (node2node_delays h !! e))
  | None => false
  end.

(** The last [if] of [__handle_received_data], the same in both classes:
    [recvbuf] is the handler's buffer and [dest] what the lookup of the
    destination transport gives. The result carries the new value of
    [self.recvbuf]. *)
Definition relay_received_data (fuel : nat) (h : NodesHub)
    (dest : option nat) (recvbuf : pyval) (data : bytes)
  : NodesHub * pyval * handler_state :=
  if Py.len data >? 0 then
    match recvbuf with
    | PyNone => (h, PyNone, HandlerRaised TypeError)   (* None += data *)
    | PyBytes b =>
        let buf := b ++ data in
        match dest with
        | None => (h, PyBytes buf, HandlerRaised KeyError)
        | Some tid =>
            match process_buffer fuel h buf tid with
            | (h', Returned v) => (h', v, HandlerDone)
            | (h', Raised e) => (h', PyBytes buf, HandlerRaised e)
            | (h', Diverged) => (h', PyBytes buf, HandlerDiverged)
            end
        end
    end
  else (h, recvbuf, HandlerDone).

(** [NodeProxy.connection_made(transport)] *)
Definition NodeProxy_connection_made (h : NodesHub) (np : NodeProxy)
    (tid : nat) : NodesHub * NodeProxy * option exception :=
  let np' := mkNodeProxy (pending_connection h) (np_recvbuf np) in
  match np_sender2receiver_pair np' with
  | None => (h, np', Some TypeError)                   (* None[:] *)
  | Some e =>
      (set_sender2proxy (<[e := tid]> (sender2proxy_transports h)) h,
       np', None)
  end.

(** [NodeProxy.connection_lost(exc)] *)
Definition NodeProxy_connection_lost (h : NodesHub) (np : NodeProxy)
  : NodesHub * option exception :=
  match np_sender2receiver_pair np with
  | None => (h, Some TypeError)
  | Some e => (disconnect_nodes h (fst e) (snd e), None)
  end.

(** One resumption of [NodeProxy.__handle_received_data(data)] from the
    point [a]; the coroutine starts at [AwaitPeer]. *)
Definition NodeProxy_handle_received_data (fuel : nat) (h : NodesHub)
    (np : NodeProxy) (a : handler_await) (data : bytes)
  : NodesHub * NodeProxy * handler_state :=
  let pair := np_sender2receiver_pair np in
  let relay :=
    let '(h', buf, pc') :=
      relay_received_data fuel h
        (e ← pair; proxy2receiver_transports h !! e)
        (np_recvbuf np) data in
    (h', mkNodeProxy pair buf, pc') in
  match a with
  | AwaitPeer =>
      if negb (pair_in pair (proxy2receiver_transports h))
      then (h, np, HandlerSuspended AwaitPeer)
      else if pair_delayed pair h then (h, np, HandlerSuspended AwaitDelay)
      else relay
  | AwaitDelay => relay
  end.

(** [ProxyRelay.connection_made(transport)] *)
Definition ProxyRelay_connection_made (h : NodesHub) (pr : ProxyRelay)
    (tid : nat) : NodesHub :=
  set_proxy2receiver
    (<[pr_sender2receiver_pair pr := tid]> (proxy2receiver_transports h)) h.

(** [ProxyRelay.connection_lost(exc)] *)
Definition ProxyRelay_connection_lost (h : NodesHub) (pr : ProxyRelay)
  : NodesHub :=
  disconnect_nodes h (fst (pr_sender2receiver_pair pr))
                     (snd (pr_sender2receiver_pair pr)).

(** One resumption of [ProxyRelay.__handle_received_data(data)] from the
    point [a]; the coroutine starts at [AwaitPeer]. *)
Definition ProxyRelay_handle_received_data (fuel : nat) (h : NodesHub)
    (pr : ProxyRelay) (a : handler_await) (data : bytes)
  : NodesHub * ProxyRelay * handler_state :=
  let pair := pr_sender2receiver_pair pr in
  let relay :=
    let '(h', buf, pc') :=
      relay_received_data fuel h (sender2proxy_transports h !! pair)
        (pr_recvbuf pr) data in
    (h', mkProxyRelay pair buf, pc') in
  match a with
  | AwaitPeer =>
      if negb (pair_in (Some pair) (sender2proxy_transports h))
      then (h, pr, HandlerSuspended AwaitPeer)
      else if pair_delayed (Some (pr_receiver2sender_pair pr)) h
           then (h, pr, HandlerSuspended AwaitDelay)
      else relay
  | AwaitDelay => relay
  end.

End Hub.

(** ** Teardown of an edge

    An edge is torn down when neither table names it any more and the two
    transports that carried it, [s] towards the sender and [r] towards the
    receiver, are closing. *)
Definition edge_torn_down (h : NodesHub) (e : edge) (s r : nat) : Prop :=
  sender2proxy_transports h !! e = None
  /\ proxy2receiver_transports h !! e = None
  /\ closing <$> transports h !! s = Some true
  /\ closing <$> transports h !! r = Some true.

(** Whether a resumption of [connect_nodes] from the point [a] gets past the
    first two loops and takes the lock [pending_connection]. *)
Definition acquires_lock (h : NodesHub) (a : connect_await) : bool :=
  match a with
  | AwaitProxies =>
      negb (bool_decide (proxy_servers h < nodes h)%nat)
      && bool_decide (pending_connection h = None)
  | AwaitLock => bool_decide (pending_connection h = None)
  | AwaitTransports => false
  end.

(** ** A sample environment

    Concrete stand-ins for the two functions of the test framework and a few
    frames, used to run the definitions on actual inputs. *)

Module Sample.

(** [p2p_port] of the test framework with port seed 0: [PORT_MIN + n]. *)
Definition p2p_port (n : nat) : Z := 11000 + Z.of_nat n.

(** A 32-byte stand-in for the digest. *)
Definition hash256 (m : bytes) : bytes :=
  Py.byte_of_Z (Py.len m) :: replicate 31 x00.

Definition magic : bytes := [xf9; xbe; xb4; xd9].

Definition b_verack : bytes := [x76; x65; x72; x61; x63; x6b].

(** A 24-byte header; [length_field] and [checksum] have four bytes. *)
Definition header (command length_field checksum : bytes) : bytes :=
  magic ++ command ++ replicate (12 - length command) x00
        ++ length_field ++ checksum.

(** A [verack] message: a header and no payload. *)
Definition verack_frame : bytes :=
  header b_verack [x00; x00; x00; x00] [x5d; xf6; xe0; xe2].

(** An 86-byte [version] payload advertising [port]. *)
Definition version_payload (port : Z) : bytes :=
  replicate 70 x11
  ++ [Py.byte_of_Z (port / 256); Py.byte_of_Z port]
  ++ replicate 14 x22.

Definition version_header : bytes :=
  header b_version [x56; x00; x00; x00] [x01; x02; x03; x04].

Definition version_frame (port : Z) : bytes :=
  version_header ++ version_payload port.

(** The first 25 bytes of a [verack]-like message whose header announces a
    2-byte payload. *)
Definition truncated_frame : bytes :=
  header b_verack [x02; x00; x00; x00] [x01; x02; x03; x04] ++ [xaa].

(** 25 bytes whose length field is ff ff ff ff. *)
Definition huge_length_frame : bytes :=
  header b_verack [xff; xff; xff; xff] [x01; x02; x03; x04] ++ [xaa].

(** 25 bytes whose length field is e8 ff ff ff. *)
Definition stuck_frame : bytes :=
  header b_verack [xe8; xff; xff; xff] [x01; x02; x03; x04] ++ [xaa].

(** A hub for two nodes after [sync_start_proxies]. *)
Definition started_hub : NodesHub := sync_start_proxies p2p_port (init 2).

(** The same hub with the edge (0, 1) open: transport 0 towards the
    sender, transport 1 towards the receiver, task 0 for the relay. *)
Definition linked_hub : NodesHub :=
  mkHub 2 ∅ 2 {[ (0%nat, 1%nat) := 0%nat ]}
        (ports2node_map started_hub)
        {[ (0%nat, 1%nat) := 0%nat ]} {[ (0%nat, 1%nat) := 1%nat ]}
        None
        [mkTransport false []; mkTransport false []] [TaskPending] [].

End Sample.

(** ** Connecting the nodes as a linked list *)

(** [sync_biconnect_nodes_as_linked_list(nodes_list)]: the calls
    [connect_nodes(i, j)] whose coroutines are handed to [gather], in the
    order in which they are created. [nodes_list] is [None] when the
    argument is left out. *)
Definition linked_list_connections (h : NodesHub)
    (nodes_list : option (list nat)) : list edge :=
  let nodes_list := match nodes_list with
                    | None => seq 0 (nodes h)
                    | Some l => l
                    end in
  if decide (0 = length nodes_list)%nat then []
  else flat_map (fun ij : nat * nat => [(ij.1, ij.2); (ij.2, ij.1)])
                (zip nodes_list (drop 1 nodes_list)).

(** ** Frames that are passed on unaltered *)

(** A 24-byte header followed by the payload whose length it announces,
    with a command other than [version]. *)
Definition plain_frame (header payload : bytes) : Prop :=
  length header = 24%nat
  /\ Py.before_nul (Py.slice (Some 4) (Some 16) header) <> b_version
  /\ Py.unpack_le_i32 (Py.slice (Some 16) (Some 20) header)
     = Ok (Py.len payload).

(** The header of a [version] message that announces [payload]. *)
Definition version_header_of (header payload : bytes) : Prop :=
  length header = 24%nat
  /\ Py.before_nul (Py.slice (Some 4) (Some 16) header) = b_version
  /\ Py.unpack_le_i32 (Py.slice (Some 16) (Some 20) header)
     = Ok (Py.len payload).

(** ** What a relay may change

    [only_writes_to dest h h']: the hub [h'] is the hub [h] but for its
    transports; the transports other than [dest] are those of [h], and
    [dest] has its closing flag and, after what was written to it in [h],
    possibly more writes. *)
Definition only_writes_to (dest : option nat) (h h' : NodesHub) : Prop :=
  h' = set_transports (transports h') h
  /\ (forall t, dest <> Some t -> transports h' !! t = transports h !! t)
  /\ (forall t tr, dest = Some t -> transports h !! t = Some tr ->
        exists outs, transports h' !! t
                     = Some (mkTransport (closing tr) (written tr ++ outs))).

(** ** More sample data *)

Module Scenario.

(** A [ping] message: a header announcing 8 bytes and these 8 bytes. *)
Definition b_ping : bytes := [x70; x69; x6e; x67].

Definition ping_header : bytes :=
  Sample.header b_ping [x08; x00; x00; x00] [x0a; x0b; x0c; x0d].

Definition ping_payload : bytes := replicate 8 x55.

(** The header of a [version] message that announces a 4-byte payload. *)
Definition short_version_header : bytes :=
  Sample.header b_version [x04; x00; x00; x00] [x01; x02; x03; x04].

(** The hub of two nodes with its listeners up and no edge. *)
Definition idle_hub : NodesHub := Sample.started_hub.

(** A sample delay of half a second. *)
Definition half_second : Q := Qmake 1 2.

(** A port allocator that runs out of the 16-bit range at its third port. *)
Definition far_p2p_port (n : nat) : Z := 65534 + Z.of_nat n.

End Scenario.

(** * Properties *)

(** ** Slices and the [struct] codecs *)

Module PyFacts.

Import Py.

Lemma clamp_nonneg (n i : Z) : 0 <= i -> clamp n i = Z.min i n.
Proof. intros Hi. unfold clamp. destruct (Z.ltb_spec i 0); [lia | done]. Qed.

(** A slice with bounds inside the list is [take] after [drop]. *)
Lemma slice_between {A} (a b : Z) (l : list A) :
  0 <= a -> a <= b -> b <= len l ->
  slice (Some a) (Some b) l = take (Z.to_nat (b - a)) (drop (Z.to_nat a) l).
Proof.
  intros Ha Hab Hb. unfold slice.
  rewrite !clamp_nonneg by lia. by rewrite !Z.min_l by lia.
Qed.

Lemma slice_to {A} (b : Z) (l : list A) :
  0 <= b -> b <= len l -> slice None (Some b) l = take (Z.to_nat b) l.
Proof.
  intros H0 Hb. unfold slice. rewrite clamp_nonneg by lia.
  rewrite Z.min_l by lia. by rewrite Z.sub_0_r.
Qed.

Lemma slice_from {A} (a : Z) (l : list A) :
  0 <= a -> a <= len l -> slice (Some a) None l = drop (Z.to_nat a) l.
Proof.
  intros H0 Ha. unfold slice. rewrite clamp_nonneg by lia.
  rewrite Z.min_l by lia. apply take_ge. rewrite length_drop.
  unfold len. lia.
Qed.

Lemma length_slice {A} (a b : Z) (l : list A) :
  0 <= a -> 0 <= b ->
  length (slice (Some a) (Some b) l)
  = Z.to_nat (Z.min b (len l) - Z.min a (len l)).
Proof.
  intros Ha Hb. unfold slice. rewrite !clamp_nonneg by lia.
  rewrite length_take, length_drop. unfold len. lia.
Qed.

(** A slice that ends inside the first of two appended lists does not see
    the second one. *)
Lemma slice_app_l {A} (a b : Z) (l k : list A) :
  0 <= a -> 0 <= b -> b <= len l ->
  slice (Some a) (Some b) (l ++ k) = slice (Some a) (Some b) l.
Proof.
  intros Ha Hb Hbl. unfold slice, len in *. rewrite length_app.
  rewrite !clamp_nonneg by lia.
  rewrite (Z.min_l b) by lia. rewrite (Z.min_l b) by lia.
  destruct (Z.le_gt_cases a (Z.of_nat (length l))) as [Hal|Hal].
  - rewrite !(Z.min_l a) by lia.
    rewrite drop_app_le by lia. rewrite take_app_le; [done|].
    rewrite length_drop. lia.
  - replace (Z.to_nat (b - Z.min a _)) with 0%nat by lia.
    replace (Z.to_nat (b - Z.min a _)) with 0%nat by lia.
    done.
Qed.

Lemma byte_val_range (b : byte) : 0 <= byte_val b <= 255.
Proof. unfold byte_val. pose proof (Byte.to_N_bounded b). lia. Qed.

Lemma byte_val_of_Z (z : Z) : byte_val (byte_of_Z z) = z mod 256.
Proof.
  unfold byte_val, byte_of_Z.
  pose proof (Z.mod_pos_bound z 256 ltac:(lia)) as Hm.
  pose proof (Byte.to_of_N_option_map (Z.to_N (z mod 256))) as Ho.
  destruct (Byte.of_N (Z.to_N (z mod 256))) as [c|] eqn:Hc; simpl in Ho.
  - destruct (N.leb_spec (Z.to_N (z mod 256)) 255); [|lia].
    injection Ho as ->. lia.
  - destruct (N.leb_spec (Z.to_N (z mod 256)) 255); [done | lia].
Qed.

(** What [pack('!H', v)] produces reads back as [v]. *)
Lemma unpack_pack_be_u16 (v : Z) (s : bytes) :
  pack_be_u16 v = Ok s -> unpack_be_u16 s = Ok v.
Proof.
  unfold pack_be_u16.
  destruct (Z.leb_spec 0 v), (Z.leb_spec v 65535); simpl; try done.
  intros [= <-]. simpl. rewrite !byte_val_of_Z. f_equal.
  rewrite (Z.mod_small (v / 256)).
  - pose proof (Z.div_mod v 256 ltac:(lia)). lia.
  - split; [apply Z.div_pos; lia | apply Z.div_lt_upper_bound; lia].
Qed.

Lemma pack_be_u16_in_range (v : Z) :
  0 <= v <= 65535 ->
  pack_be_u16 v = Ok [byte_of_Z (v / 256); byte_of_Z v].
Proof.
  intros Hv. unfold pack_be_u16.
  destruct (Z.leb_spec 0 v), (Z.leb_spec v 65535); simpl; (done || lia).
Qed.

(** [unpack("<i", _)] succeeds on four bytes and gives a 32-bit signed
    value congruent to the unsigned reading. *)
Lemma unpack_le_i32_range (s : bytes) (v : Z) :
  unpack_le_i32 s = Ok v -> - 2147483648 <= v < 2147483648.
Proof.
  destruct s as [|b0 [|b1 [|b2 [|b3 [|? ?]]]]]; simpl; try done.
  intros [= <-].
  pose proof (byte_val_range b0). pose proof (byte_val_range b1).
  pose proof (byte_val_range b2). pose proof (byte_val_range b3).
  case_match; lia.
Qed.

Lemma unpack_le_i32_length (s : bytes) :
  length s = 4%nat -> exists v, unpack_le_i32 s = Ok v.
Proof.
  destruct s as [|b0 [|b1 [|b2 [|b3 [|? ?]]]]]; simpl; try done.
  eauto.
Qed.

Lemma unpack_be_u16_length (s : bytes) (v : Z) :
  unpack_be_u16 s = Ok v -> length s = 2%nat.
Proof. destruct s as [|b0 [|b1 [|? ?]]]; simpl; done. Qed.

End PyFacts.

(** ** The frame scanner *)

Section Scanner.

Variable p2p_port : nat -> Z.
Variable hash256 : bytes -> bytes.

Abbreviation process_frame := (process_frame p2p_port hash256).
Abbreviation process_buffer := (process_buffer p2p_port hash256).
Abbreviation get_proxy_port := (get_proxy_port p2p_port).

(** The loop body with its constants evaluated. *)
Lemma process_frame_eq (h : NodesHub) (buffer : bytes) :
  process_frame h buffer =
  if Py.len buffer >? 24 then
    match Py.unpack_le_i32 (Py.slice (Some 16) (Some 20) buffer) with
    | Raise e => Fail e
    | Ok msglen =>
        if Py.len buffer <? 24 + msglen then Return PyNone
        else
          let rest := Py.slice (Some (24 + msglen)) None buffer in
          if decide (b_version
                     = Py.before_nul (Py.slice (Some 4) (Some 16) buffer))
          then
            let msg := Py.slice (Some 24) (Some (24 + msglen)) buffer in
            match
              node_port <- Py.unpack_be_u16
                             (Py.slice (Some 70) (Some 72) msg);;
              proxy_port <- (if decide (node_port <> 0) then
                               match ports2node_map h !! node_port with
                               | Some node => Ok (get_proxy_port h node)
                               | None => Raise KeyError
                               end
                             else Ok 0);;
              packed <- Py.pack_be_u16 proxy_port;;
              Ok (Py.slice None (Some 70) msg ++ packed
                  ++ Py.slice (Some 72) None msg)
            with
            | Raise e => Fail e
            | Ok msg' =>
                Written
                  ((Py.slice None (Some 20) buffer
                    ++ Py.slice None (Some 4) (hash256 msg')) ++ msg')
                  rest
            end
          else Written (Py.slice None (Some (24 + msglen)) buffer) rest
    end
  else Return (PyBytes buffer).
Proof. reflexivity. Qed.

(** One turn of the loop. *)
Lemma process_buffer_S (fuel : nat) (h : NodesHub) (buffer : bytes)
    (tid : nat) :
  process_buffer (S fuel) h buffer tid =
  match process_frame h buffer with
  | Return v => (h, Returned v)
  | Fail e => (h, Raised e)
  | Written out rest => process_buffer fuel (write_to tid out h) rest tid
  end.
Proof. reflexivity. Qed.

(** A pass that writes is followed by the scan of what is left. *)
Lemma process_buffer_written (fuel : nat) (h : NodesHub)
    (buffer out rest : bytes) (tid : nat) :
  process_frame h buffer = Written out rest ->
  process_buffer (S fuel) h buffer tid
  = process_buffer fuel (write_to tid out h) rest tid.
Proof. intros H. by rewrite process_buffer_S, H. Qed.

(** The pieces of a buffer that starts with a header and a payload. *)
Lemma frame_slices (header payload rest : bytes) :
  length header = 24%nat ->
  let buffer := header ++ payload ++ rest in
  Py.slice (Some 16) (Some 20) buffer = Py.slice (Some 16) (Some 20) header
  /\ Py.slice (Some 4) (Some 16) buffer = Py.slice (Some 4) (Some 16) header
  /\ Py.slice None (Some 20) buffer = take 20 header
  /\ Py.slice (Some 24) (Some (24 + Py.len payload)) buffer = payload
  /\ Py.slice (Some (24 + Py.len payload)) None buffer = rest
  /\ Py.slice None (Some (24 + Py.len payload)) buffer = header ++ payload.
Proof.
  intros Hh buffer. subst buffer. unfold Py.len.
  repeat split.
  - apply PyFacts.slice_app_l; unfold Py.len; lia.
  - apply PyFacts.slice_app_l; unfold Py.len; lia.
  - rewrite PyFacts.slice_to by (unfold Py.len; rewrite ?length_app; lia).
    rewrite take_app_le by lia. done.
  - rewrite PyFacts.slice_between
      by (unfold Py.len; rewrite ?length_app; lia).
    replace (Z.to_nat 24) with (length header) by lia.
    rewrite drop_app_length.
    replace (Z.to_nat _) with (length payload) by lia.
    apply take_app_length.
  - rewrite PyFacts.slice_from by (unfold Py.len; rewrite ?length_app; lia).
    rewrite app_assoc. apply drop_app_length'. rewrite length_app. lia.
  - rewrite PyFacts.slice_to by (unfold Py.len; rewrite ?length_app; lia).
    rewrite app_assoc. apply take_app_length'. rewrite length_app. lia.
Qed.

(** Writing to a transport does not change what a pass does. *)
Lemma process_frame_write_to (tid : nat) (out : bytes) (h : NodesHub)
    (buffer : bytes) :
  process_frame (write_to tid out h) buffer = process_frame h buffer.
Proof. reflexivity. Qed.

Lemma consumed_write_to (tid : nat) (out : bytes) (h : NodesHub)
    (buffer : bytes) (outs : list bytes) (buffer' : bytes) :
  consumed p2p_port hash256 h buffer outs buffer' ->
  consumed p2p_port hash256 (write_to tid out h) buffer outs buffer'.
Proof.
  induction 1 as [|buffer o rest outs buffer' Hstep _ IH]; econstructor; eauto.
Qed.

Lemma process_frame_write_to_all (tid : nat) (outs : list bytes)
    (h : NodesHub) (buffer : bytes) :
  process_frame (foldl (fun g o => write_to tid o g) h outs) buffer
  = process_frame h buffer.
Proof.
  revert h. induction outs as [|o outs IH]; intros h; [done|].
  cbn [foldl]. by rewrite IH.
Qed.

(** The passes of [consumed] are the first passes of [process_buffer]. *)
Lemma scanner_output_consumed (fuel : nat) (h : NodesHub) (buffer : bytes)
    (outs : list bytes) (buffer' : bytes) :
  consumed p2p_port hash256 h buffer outs buffer' ->
  scanner_output p2p_port hash256 (length outs + fuel) h buffer
  = outs ++ scanner_output p2p_port hash256 fuel h buffer'.
Proof.
  induction 1 as [|buffer o rest outs buffer' Hstep _ IH]; [done|].
  cbn. by rewrite Hstep, IH.
Qed.

Lemma process_buffer_consumed (fuel : nat) (h : NodesHub) (buffer : bytes)
    (outs : list bytes) (buffer' : bytes) (tid : nat) :
  consumed p2p_port hash256 h buffer outs buffer' ->
  process_buffer (length outs + fuel) h buffer tid
  = process_buffer fuel (foldl (fun g o => write_to tid o g) h outs)
      buffer' tid.
Proof.
  intros Hc. revert h Hc. revert buffer.
  induction outs as [|o outs IH]; intros buffer h Hc; inversion Hc; subst.
  - done.
  - cbn [length Nat.add foldl]. rewrite process_buffer_S.
    match goal with H : process_frame _ _ = _ |- _ => rewrite H end.
    apply IH. by apply consumed_write_to.
Qed.

(** The payload after the rewrite of its port field has the length of the
    original and differs from it at offsets 70 and 71 only. *)
Lemma rewritten_payload (V packed : bytes) :
  (72 <= length V)%nat -> length packed = 2%nat ->
  let V' := Py.slice None (Some 70) V ++ packed
            ++ Py.slice (Some 72) None V in
  length V' = length V
  /\ (forall k : nat, k <> 70%nat -> k <> 71%nat -> V' !! k = V !! k)
  /\ Py.slice (Some 70) (Some 72) V' = packed.
Proof.
  intros HV Hp V'. subst V'.
  rewrite PyFacts.slice_to by (unfold Py.len; lia).
  rewrite PyFacts.slice_from by (unfold Py.len; lia).
  change (Z.to_nat 70) with 70%nat. change (Z.to_nat 72) with 72%nat.
  assert (Hlen : length (take 70 V ++ packed ++ drop 72 V) = length V).
  { rewrite !length_app, length_take, length_drop. lia. }
  split; [exact Hlen|]. split.
  - intros k H70 H71.
    destruct (decide (k < 70)%nat) as [Hk|Hk].
    + rewrite lookup_app_l by (rewrite length_take; lia).
      apply lookup_take_lt. lia.
    + rewrite lookup_app_r by (rewrite length_take; lia).
      rewrite length_take, Nat.min_l by lia.
      rewrite lookup_app_r by lia.
      rewrite lookup_drop. f_equal. lia.
  - rewrite PyFacts.slice_between by (unfold Py.len; lia).
    change (Z.to_nat 70) with 70%nat. change (Z.to_nat (72 - 70)) with 2%nat.
    replace 70%nat with (length (take 70 V)) at 1
      by (rewrite length_take; lia).
    rewrite drop_app_length.
    rewrite <- Hp. apply take_app_length.
Qed.


(** What a pass that writes has read and what it leaves. *)
Lemma process_frame_written_inv (h : NodesHub) (buffer out rest : bytes) :
  process_frame h buffer = Written out rest ->
  exists msglen,
    Py.unpack_le_i32 (Py.slice (Some 16) (Some 20) buffer) = Ok msglen
    /\ 24 < Py.len buffer
    /\ 24 + msglen <= Py.len buffer
    /\ rest = Py.slice (Some (24 + msglen)) None buffer.
Proof.
  rewrite process_frame_eq.
  destruct (Z.gtb_spec (Py.len buffer) 24) as [Hgt|]; [|done].
  destruct (Py.unpack_le_i32 _) as [msglen|] eqn:Hlen; [|done].
  destruct (Z.ltb_spec (Py.len buffer) (24 + msglen)) as [|Hge]; [done|].
  cbn zeta. intros H. exists msglen.
  repeat split; [lia | lia |].
  case_decide; [|by injection H].
  destruct (bind _ _); [by injection H | done].
Qed.

(** With a length field that is not negative, a consumed frame takes its
    header and its payload off the buffer. *)
Lemma consumed_frame_shrinks (h : NodesHub) (buffer out rest : bytes)
    (msglen : Z) :
  process_frame h buffer = Written out rest ->
  Py.unpack_le_i32 (Py.slice (Some 16) (Some 20) buffer) = Ok msglen ->
  0 <= msglen ->
  Py.len rest = Py.len buffer - 24 - msglen.
Proof.
  intros H Hlen Hpos.
  destruct (process_frame_written_inv _ _ _ _ H) as (n & Hn & _ & Hle & ->).
  rewrite Hlen in Hn. injection Hn as <-.
  rewrite PyFacts.slice_from by lia.
  unfold Py.len in *. rewrite length_drop. lia.
Qed.

(** A complete frame that is not a [version] message and is followed by at
    least one more byte, or has a payload, is written as it came. *)
Lemma other_frame_forwarded (h : NodesHub) (header payload rest : bytes) :
  length header = 24%nat ->
  Py.before_nul (Py.slice (Some 4) (Some 16) header) <> b_version ->
  Py.unpack_le_i32 (Py.slice (Some 16) (Some 20) header)
  = Ok (Py.len payload) ->
  (0 < length (payload ++ rest))%nat ->
  process_frame h (header ++ payload ++ rest)
  = Written (header ++ payload) rest.
Proof.
  intros Hh Hcmd Hlen Hmore. rewrite length_app in Hmore.
  destruct (frame_slices header payload rest Hh)
    as (S1 & S2 & _ & _ & S5 & S6).
  rewrite process_frame_eq.
  assert ((Py.len (header ++ payload ++ rest) >? 24) = true) as ->.
  { rewrite Z.gtb_ltb. apply Z.ltb_lt.
    unfold Py.len. rewrite !length_app. lia. }
  rewrite S1, Hlen. cbn zeta.
  assert ((Py.len (header ++ payload ++ rest) <? 24 + Py.len payload)
          = false) as ->.
  { apply Z.ltb_ge. unfold Py.len. rewrite !length_app. lia. }
  rewrite S2, S5, S6. by rewrite decide_False by done.
Qed.

(** A buffer of more than 24 bytes that stops before the end of its first
    frame makes [process_buffer] return [None]. *)
Lemma incomplete_frame_returns_None (fuel : nat) (h : NodesHub)
    (buffer : bytes) (msglen : Z) (tid : nat) :
  24 < Py.len buffer ->
  Py.unpack_le_i32 (Py.slice (Some 16) (Some 20) buffer) = Ok msglen ->
  Py.len buffer < 24 + msglen ->
  process_buffer (S fuel) h buffer tid = (h, Returned PyNone).
Proof.
  intros Hgt Hlen Hlt.
  rewrite process_buffer_S, process_frame_eq, Hlen.
  destruct (Z.gtb_spec (Py.len buffer) 24); [|lia].
  by destruct (Z.ltb_spec (Py.len buffer) (24 + msglen)); [|lia].
Qed.

(** A buffer of at most 24 bytes is handed back as it is. *)
Lemma short_buffer_returned (fuel : nat) (h : NodesHub) (buffer : bytes)
    (tid : nat) :
  Py.len buffer <= 24 ->
  process_buffer (S fuel) h buffer tid = (h, Returned (PyBytes buffer)).
Proof.
  intros Hle. rewrite process_buffer_S, process_frame_eq.
  by destruct (Z.gtb_spec (Py.len buffer) 24); [lia|].
Qed.

(** The loop can only go on for more passes than the buffer has bytes
    after a pass that read a negative length. *)
Lemma divergence_needs_negative_length (fuel : nat) (h : NodesHub)
    (buffer : bytes) (tid : nat) :
  (length buffer < fuel)%nat ->
  (process_buffer fuel h buffer tid).2 = Diverged ->
  exists (seen : bytes) (msglen : Z),
    Py.unpack_le_i32 (Py.slice (Some 16) (Some 20) seen) = Ok msglen
    /\ msglen < 0.
Proof.
  revert h buffer. induction fuel as [|fuel IH]; intros h buffer Hfuel;
    [lia|].
  rewrite process_buffer_S.
  destruct (process_frame h buffer) as [v|out rest|e] eqn:Hstep;
    [done| |done].
  intros Hdiv.
  destruct (process_frame_written_inv _ _ _ _ Hstep)
    as (msglen & Hlen & _ & _ & _).
  destruct (decide (msglen < 0)) as [Hneg|Hpos]; [by eauto|].
  apply (IH (write_to tid out h) rest); [|done].
  pose proof (consumed_frame_shrinks _ _ _ _ _ Hstep Hlen ltac:(lia)).
  unfold Py.len in *. lia.
Qed.

(** The scanner only appends to the write log of its transport: tables,
    lock and closing flags are those of the hub it started from. *)
Lemma write_to_keeps_tables (tid : nat) (out : bytes) (h : NodesHub) :
  let h' := write_to tid out h in
  nodes h' = nodes h
  /\ ports2node_map h' = ports2node_map h
  /\ sender2proxy_transports h' = sender2proxy_transports h
  /\ proxy2receiver_transports h' = proxy2receiver_transports h
  /\ relay_tasks h' = relay_tasks h
  /\ pending_connection h' = pending_connection h
  /\ tasks h' = tasks h
  /\ closing <$> transports h' = closing <$> transports h.
Proof.
  repeat split. cbn. apply list_eq. intros i.
  rewrite !list_lookup_fmap.
  destruct (decide (i = tid)) as [->|Hne].
  - rewrite list_lookup_alter_eq. by destruct (transports h !! tid).
  - by rewrite list_lookup_alter_ne.
Qed.

Lemma process_buffer_keeps_tables (fuel : nat) (h : NodesHub)
    (buffer : bytes) (tid : nat) :
  let h' := (process_buffer fuel h buffer tid).1 in
  sender2proxy_transports h' = sender2proxy_transports h
  /\ proxy2receiver_transports h' = proxy2receiver_transports h
  /\ relay_tasks h' = relay_tasks h
  /\ pending_connection h' = pending_connection h
  /\ tasks h' = tasks h
  /\ closing <$> transports h' = closing <$> transports h.
Proof.
  revert h buffer. induction fuel as [|fuel IH]; intros h buffer; [done|].
  rewrite process_buffer_S.
  destruct (process_frame h buffer) as [v|out rest|e]; [done| |done].
  destruct (IH (write_to tid out h) rest) as (I1 & I2 & I3 & I4 & I5 & I6).
  destruct (write_to_keeps_tables tid out h)
    as (_ & _ & W1 & W2 & W3 & W4 & W5 & W6).
  cbn zeta in *.
  rewrite I1, I2, I3, I4, I5, I6. done.
Qed.

(** The relay step of the handlers leaves tables, lock, tasks and closing
    flags as they are, whatever the buffer holds. *)
Lemma relay_received_data_keeps_tables (fuel : nat) (h : NodesHub)
    (dest : option nat) (recvbuf : pyval) (data : bytes) :
  let h' := (relay_received_data p2p_port hash256 fuel h dest recvbuf data).1.1 in
  sender2proxy_transports h' = sender2proxy_transports h
  /\ proxy2receiver_transports h' = proxy2receiver_transports h
  /\ relay_tasks h' = relay_tasks h
  /\ pending_connection h' = pending_connection h
  /\ tasks h' = tasks h
  /\ closing <$> transports h' = closing <$> transports h.
Proof.
  unfold relay_received_data.
  destruct (Py.len data >? 0); [|done].
  destruct recvbuf as [|b]; [done|].
  destruct dest as [tid|]; [|done].
  pose proof (process_buffer_keeps_tables fuel h (b ++ data) tid) as H.
  destruct (process_buffer fuel h (b ++ data) tid) as [h' [v|e|]]; exact H.
Qed.

(** What the writes of the frames consumed so far leave of the hub. *)
Lemma foldl_write_to_keeps_tables (tid : nat) (outs : list bytes)
    (h : NodesHub) :
  let h' := foldl (fun g o => write_to tid o g) h outs in
  sender2proxy_transports h' = sender2proxy_transports h
  /\ proxy2receiver_transports h' = proxy2receiver_transports h
  /\ relay_tasks h' = relay_tasks h
  /\ pending_connection h' = pending_connection h
  /\ tasks h' = tasks h
  /\ closing <$> transports h' = closing <$> transports h
  /\ (forall t, t <> tid -> transports h' !! t = transports h !! t).
Proof.
  revert h. induction outs as [|o outs IH]; intros h; [done|].
  cbn [foldl]. cbv zeta in *.
  destruct (IH (write_to tid o h)) as (I1 & I2 & I3 & I4 & I5 & I6 & I7).
  destruct (write_to_keeps_tables tid o h)
    as (_ & _ & W1 & W2 & W3 & W4 & W5 & W6).
  cbv zeta in *.
  rewrite I1, I2, I3, I4, I5, I6.
  repeat split; try done.
  intros t Ht. rewrite I7 by done. cbn. by apply list_lookup_alter_ne.
Qed.

(** C3, as the code has it. Let the scanner, started on [buffer], have
    consumed the frames before a complete [version] frame ([outs] is what
    it wrote for them; none when the frame is the first), and let the
    advertised port of that frame be non-zero and not a key of
    [ports2node_map]. Then [process_buffer] raises [KeyError] at the lookup:
    the frames before have been written to the destination transport, the
    frame itself and the bytes behind it have not. The exception ends the
    coroutine [__handle_received_data] of either protocol class, resumed
    after its waits, with [recvbuf] holding all the bytes received. The hub
    does not handle it: but for the write log of the destination, the hub
    is as it was; in particular the edge is in both tables, its relay task
    is untouched and no transport has been closed. *)
Theorem unknown_port_raises_KeyError (h : NodesHub) (buffer : bytes)
    (outs : list bytes) (header V rest : bytes) (p : Z) :
  consumed p2p_port hash256 h buffer outs (header ++ V ++ rest) ->
  length header = 24%nat ->
  Py.before_nul (Py.slice (Some 4) (Some 16) header) = b_version ->
  Py.unpack_le_i32 (Py.slice (Some 16) (Some 20) header) = Ok (Py.len V) ->
  Py.unpack_be_u16 (Py.slice (Some 70) (Some 72) V) = Ok p ->
  p <> 0 ->
  ports2node_map h !! p = None ->
  let after := fun tid => foldl (fun g o => write_to tid o g) h outs in
  process_frame h (header ++ V ++ rest) = Fail KeyError
  /\ (forall fuel,
        scanner_output p2p_port hash256 (length outs + S fuel) h buffer
        = outs)
  /\ (forall fuel tid,
        process_buffer (length outs + S fuel) h buffer tid
        = (after tid, Raised KeyError))
  /\ (forall fuel e tid b data a,
        b ++ data = buffer -> data <> [] ->
        proxy2receiver_transports h !! e = Some tid ->
        (a = AwaitPeer -> node2node_delays h !! e = None) ->
        NodeProxy_handle_received_data p2p_port hash256
          (length outs + S fuel) h (mkNodeProxy (Some e) (PyBytes b)) a data
        = (after tid, mkNodeProxy (Some e) (PyBytes (b ++ data)),
           HandlerRaised KeyError))
  /\ (forall fuel e tid b data a,
        b ++ data = buffer -> data <> [] ->
        sender2proxy_transports h !! e = Some tid ->
        (a = AwaitPeer -> node2node_delays h !! (e.2, e.1) = None) ->
        ProxyRelay_handle_received_data p2p_port hash256
          (length outs + S fuel) h (mkProxyRelay e (PyBytes b)) a data
        = (after tid, mkProxyRelay e (PyBytes (b ++ data)),
           HandlerRaised KeyError))
  /\ (forall tid,
        after tid = set_transports (transports (after tid)) h
        /\ sender2proxy_transports (after tid) = sender2proxy_transports h
        /\ proxy2receiver_transports (after tid)
           = proxy2receiver_transports h
        /\ relay_tasks (after tid) = relay_tasks h
        /\ pending_connection (after tid) = pending_connection h
        /\ tasks (after tid) = tasks h
        /\ closing <$> transports (after tid) = closing <$> transports h
        /\ (forall t, t <> tid ->
              transports (after tid) !! t = transports h !! t))
  /\ (forall fuel dest recvbuf data,
        let h' := (relay_received_data p2p_port hash256 fuel h dest
                     recvbuf data).1.1 in
        sender2proxy_transports h' = sender2proxy_transports h
        /\ proxy2receiver_transports h' = proxy2receiver_transports h
        /\ relay_tasks h' = relay_tasks h
        /\ closing <$> transports h' = closing <$> transports h).
Proof.
  intros Hseen Hh Hcmd Hlen Hport Hp Hmap after.
  assert (HV : (72 <= length V)%nat).
  { apply PyFacts.unpack_be_u16_length in Hport.
    rewrite PyFacts.length_slice in Hport by lia. unfold Py.len in Hport.
    lia. }
  destruct (frame_slices header V rest Hh) as (S1 & S2 & _ & S4 & _ & _).
  assert (Hstep : forall g,
             ports2node_map g = ports2node_map h ->
             process_frame g (header ++ V ++ rest) = Fail KeyError).
  { intros g Hg. rewrite process_frame_eq.
    assert ((Py.len (header ++ V ++ rest) >? 24) = true) as ->.
    { rewrite Z.gtb_ltb. apply Z.ltb_lt.
      unfold Py.len. rewrite !length_app. lia. }
    rewrite S1, Hlen. cbn zeta.
    assert ((Py.len (header ++ V ++ rest) <? 24 + Py.len V) = false) as ->.
    { apply Z.ltb_ge. unfold Py.len. rewrite !length_app. lia. }
    rewrite S2, Hcmd, S4. rewrite decide_True by done.
    rewrite Hport. cbn [bind]. rewrite decide_True by done.
    by rewrite Hg, Hmap. }
  assert (Hrun : forall fuel tid,
             process_buffer (length outs + S fuel) h buffer tid
             = (after tid, Raised KeyError)).
  { intros fuel tid. rewrite (process_buffer_consumed _ _ _ _ _ _ Hseen).
    rewrite process_buffer_S, process_frame_write_to_all.
    by rewrite (Hstep h). }
  assert (Hrelay : forall fuel tid b data,
             b ++ data = buffer -> data <> [] ->
             relay_received_data p2p_port hash256 (length outs + S fuel) h
               (Some tid) (PyBytes b) data
             = (after tid, PyBytes (b ++ data), HandlerRaised KeyError)).
  { intros fuel tid b data Hb Hd. unfold relay_received_data.
    assert ((Py.len data >? 0) = true) as ->.
    { rewrite Z.gtb_ltb. apply Z.ltb_lt. unfold Py.len.
      destruct data; [done | simpl; lia]. }
    by rewrite Hb, Hrun. }
  split; [by apply Hstep|]. split; [|split; [exact Hrun|]].
  { intros fuel. rewrite (scanner_output_consumed _ _ _ _ _ Hseen).
    cbn. rewrite (Hstep h) by done. apply app_nil_r. }
  split; [|split; [|split]].
  - intros fuel e tid b data a Hb Hd He Hdelay.
    unfold NodeProxy_handle_received_data.
    cbn [np_sender2receiver_pair np_recvbuf pair_in pair_delayed
         mbind option_bind].
    rewrite He, Hrelay by done.
    destruct a; [|done].
    rewrite (Hdelay eq_refl).
    rewrite bool_decide_eq_true_2 by eauto.
    by rewrite bool_decide_eq_false_2 by (intros [? ?]; done).
  - intros fuel e tid b data a Hb Hd He Hdelay.
    unfold ProxyRelay_handle_received_data, pr_receiver2sender_pair.
    cbn [pr_sender2receiver_pair pr_recvbuf pair_in pair_delayed].
    rewrite He, Hrelay by done.
    destruct a; [|done].
    rewrite (Hdelay eq_refl).
    rewrite bool_decide_eq_true_2 by eauto.
    by rewrite bool_decide_eq_false_2 by (intros [? ?]; done).
  - intros tid.
    destruct (foldl_write_to_keeps_tables tid outs h)
      as (K1 & K2 & K3 & K4 & K5 & K6 & K7).
    split; [|done].
    unfold after. clear. revert h.
    induction outs as [|o outs IH]; intros h; [by destruct h|].
    cbn [foldl]. rewrite IH at 1. reflexivity.
  - intros fuel dest recvbuf data.
    pose proof (relay_received_data_keeps_tables fuel h dest recvbuf data)
      as (K1 & K2 & K3 & _ & _ & K6).
    done.
Qed.

(** C2, on the code. The buffer [Sample.truncated_frame] has 25 bytes and
    a header that announces a 2-byte payload, so its frame is incomplete:
    [process_buffer] writes nothing and returns [None], not the buffer.
    The handler stores that [None] as its buffer and the next data it
    receives raises [TypeError] at [self.recvbuf += data]. *)
Theorem incomplete_frame_loses_buffer :
  Py.len Sample.truncated_frame = 25
  /\ Py.unpack_le_i32
       (Py.slice (Some 16) (Some 20) Sample.truncated_frame) = Ok 2
  /\ (forall fuel h tid,
        process_buffer (S fuel) h Sample.truncated_frame tid
        = (h, Returned PyNone))
  /\ NodeProxy_handle_received_data p2p_port hash256 8 Sample.linked_hub
       (mkNodeProxy (Some (0, 1)%nat) (PyBytes [])) AwaitPeer
       Sample.truncated_frame
     = (Sample.linked_hub, mkNodeProxy (Some (0, 1)%nat) PyNone,
        HandlerDone)
  /\ NodeProxy_handle_received_data p2p_port hash256 8 Sample.linked_hub
       (mkNodeProxy (Some (0, 1)%nat) PyNone) AwaitPeer [xbb]
     = (Sample.linked_hub, mkNodeProxy (Some (0, 1)%nat) PyNone,
        HandlerRaised TypeError).
Proof.
  split; [reflexivity|]. split; [reflexivity|]. split; [|split].
  - intros fuel h tid.
    by apply (incomplete_frame_returns_None fuel h _ 2 tid).
  - vm_compute. reflexivity.
  - vm_compute. reflexivity.
Qed.

(** C4, on the code. The length field ff ff ff ff, which is 4294967295 as
    an unsigned integer, is read as -1: the 25 bytes of
    [Sample.huge_length_frame] pass for a complete frame of 23 bytes,
    which is written out, and the last two bytes stay in the buffer. *)
Theorem length_field_read_signed :
  Py.slice (Some 16) (Some 20) Sample.huge_length_frame
  = [xff; xff; xff; xff]
  /\ Py.le_u32 [xff; xff; xff; xff] = 4294967295
  /\ Py.unpack_le_i32 [xff; xff; xff; xff] = Ok (-1)
  /\ (forall h,
        process_frame h Sample.huge_length_frame
        = Written (take 23 Sample.huge_length_frame)
                  (drop 23 Sample.huge_length_frame)).
Proof.
  split; [reflexivity|]. split; [reflexivity|]. split; [reflexivity|].
  intros h. vm_compute. reflexivity.
Qed.

(** C5, on the code. The length field e8 ff ff ff is read as -24: a pass
    over [Sample.stuck_frame] writes the empty string and leaves the
    buffer as it is, so the loop of [process_buffer] never ends. *)
Theorem negative_length_never_returns :
  Py.unpack_le_i32 (Py.slice (Some 16) (Some 20) Sample.stuck_frame)
  = Ok (-24)
  /\ (forall h,
        process_frame h Sample.stuck_frame = Written [] Sample.stuck_frame)
  /\ (forall fuel h tid,
        (process_buffer fuel h Sample.stuck_frame tid).2 = Diverged).
Proof.
  assert (Hstep : forall h,
             process_frame h Sample.stuck_frame
             = Written [] Sample.stuck_frame).
  { intros h. vm_compute. reflexivity. }
  split; [reflexivity|]. split; [exact Hstep|].
  induction fuel as [|fuel IH]; intros h tid; [done|].
  rewrite process_buffer_S, Hstep. apply IH.
Qed.

(** C6, on the code. [Sample.verack_frame] is a complete frame, a 24-byte
    header announcing an empty payload, and its command is not
    [version]; alone in the buffer it is not written: [process_buffer]
    writes nothing and returns the 24 bytes as the rest. With one more
    byte behind it the same frame is written as it came. *)
Theorem bare_header_frame_not_forwarded :
  Py.len Sample.verack_frame = 24
  /\ Py.unpack_le_i32 (Py.slice (Some 16) (Some 20) Sample.verack_frame)
     = Ok 0
  /\ Py.before_nul (Py.slice (Some 4) (Some 16) Sample.verack_frame)
     = Sample.b_verack
  /\ (forall fuel h tid,
        process_buffer (S fuel) h Sample.verack_frame tid
        = (h, Returned (PyBytes Sample.verack_frame)))
  /\ (forall fuel h,
        scanner_output p2p_port hash256 fuel h Sample.verack_frame = [])
  /\ (forall h x,
        process_frame h (Sample.verack_frame ++ [x])
        = Written Sample.verack_frame [x]).
Proof.
  split; [reflexivity|]. split; [reflexivity|]. split; [reflexivity|].
  split; [|split].
  - intros fuel h tid. by apply short_buffer_returned.
  - intros [|fuel] h; reflexivity.
  - intros h x.
    apply (other_frame_forwarded h Sample.verack_frame [] [x]); try done.
    simpl. lia.
Qed.

End Scanner.


(** C3's theorem at a [verack] followed by the frame
    [Sample.version_frame 9], received by the [NodeProxy] of the edge
    (0, 1): no node has port 9; the [verack] is written to transport 1 and
    the handler ends with [KeyError]. *)
Lemma unknown_port_raises_KeyError_witness :
  NodeProxy_handle_received_data Sample.p2p_port Sample.hash256 2
    Sample.linked_hub (mkNodeProxy (Some (0, 1)%nat) (PyBytes []))
    AwaitPeer (Sample.verack_frame ++ Sample.version_frame 9)
  = (write_to 1 Sample.verack_frame Sample.linked_hub,
     mkNodeProxy (Some (0, 1)%nat)
       (PyBytes ([] ++ Sample.verack_frame ++ Sample.version_frame 9)),
     HandlerRaised KeyError).
Proof.
  destruct (unknown_port_raises_KeyError Sample.p2p_port Sample.hash256
              Sample.linked_hub
              (Sample.verack_frame ++ Sample.version_frame 9)
              [Sample.verack_frame]
              Sample.version_header (Sample.version_payload 9) [] 9)
    as (_ & _ & _ & H & _).
  - eapply consumed_cons; [|apply consumed_nil]. vm_compute. reflexivity.
  - reflexivity.
  - reflexivity.
  - reflexivity.
  - reflexivity.
  - discriminate.
  - vm_compute. reflexivity.
  - apply (H 0%nat (0, 1)%nat 1%nat [] _ AwaitPeer).
    + reflexivity.
    + discriminate.
    + vm_compute. reflexivity.
    + intros _. vm_compute. reflexivity.
Defined.

(** C3 as stated fails: the edge (0, 1) of [Sample.linked_hub] receives a
    [version] frame advertising port 9, which is not zero and not in
    [ports2node_map]; the handler ends with [KeyError] and afterwards the
    edge is still in both tables and its transports are not closing. *)
Lemma unknown_port_edge_not_torn_down :
  let run :=
    NodeProxy_handle_received_data Sample.p2p_port Sample.hash256 8
      Sample.linked_hub (mkNodeProxy (Some (0, 1)%nat) (PyBytes []))
      AwaitPeer (Sample.version_frame 9) in
  Py.unpack_be_u16
    (Py.slice (Some 70) (Some 72) (Sample.version_payload 9)) = Ok 9
  /\ ports2node_map Sample.linked_hub !! 9 = None
  /\ run.2 = HandlerRaised KeyError
  /\ sender2proxy_transports run.1.1 !! (0, 1)%nat = Some 0%nat
  /\ proxy2receiver_transports run.1.1 !! (0, 1)%nat = Some 1%nat
  /\ closing <$> transports run.1.1 = [false; false]
  /\ ~ edge_torn_down run.1.1 (0, 1)%nat 0 1.
Proof.
  cbv zeta.
  split; [reflexivity|]. split; [vm_compute; reflexivity|].
  split; [vm_compute; reflexivity|]. split; [vm_compute; reflexivity|].
  split; [vm_compute; reflexivity|]. split; [vm_compute; reflexivity|].
  intros (H & _). revert H. vm_compute. discriminate.
Qed.

(** ** Connecting and disconnecting *)

Section Edges.

Variable p2p_port : nat -> Z.

Lemma close_unless_closing_tables (tid : nat) (h : NodesHub) :
  let h' := close_unless_closing tid h in
  sender2proxy_transports h' = sender2proxy_transports h
  /\ proxy2receiver_transports h' = proxy2receiver_transports h
  /\ relay_tasks h' = relay_tasks h.
Proof.
  unfold close_unless_closing.
  destruct (transports h !! tid) as [t|]; [|done].
  by destruct (closing t).
Qed.

Lemma cancel_unless_cancelled_tables (k : nat) (h : NodesHub) :
  let h' := cancel_unless_cancelled k h in
  sender2proxy_transports h' = sender2proxy_transports h
  /\ proxy2receiver_transports h' = proxy2receiver_transports h
  /\ relay_tasks h' = relay_tasks h.
Proof.
  unfold cancel_unless_cancelled.
  destruct (tasks h !! k) as [t|]; [|done].
  by destruct (task_is_cancelled t).
Qed.

(** After [disconnect_nodes] the edge is in none of the three tables. *)
Lemma disconnect_nodes_removes (h : NodesHub) (o i : nat) :
  let h' := disconnect_nodes h o i in
  sender2proxy_transports h' !! (o, i) = None
  /\ proxy2receiver_transports h' !! (o, i) = None
  /\ relay_tasks h' !! (o, i) = None.
Proof.
  unfold disconnect_nodes. cbn.
  by rewrite !lookup_delete_eq.
Qed.

(** On an edge that is in none of the tables [disconnect_nodes] does
    nothing. *)
Lemma disconnect_nodes_absent (h : NodesHub) (o i : nat) :
  sender2proxy_transports h !! (o, i) = None ->
  proxy2receiver_transports h !! (o, i) = None ->
  relay_tasks h !! (o, i) = None ->
  disconnect_nodes h o i = h.
Proof.
  intros Hs Hr Ht. unfold disconnect_nodes. rewrite Hs, Hr, Ht.
  destruct h. cbn in *. by rewrite !delete_id.
Qed.

(** Other edges keep their entries. *)
Lemma disconnect_nodes_other (h : NodesHub) (o i : nat) (e : edge) :
  e <> (o, i) ->
  let h' := disconnect_nodes h o i in
  sender2proxy_transports h' !! e = sender2proxy_transports h !! e
  /\ proxy2receiver_transports h' !! e = proxy2receiver_transports h !! e
  /\ relay_tasks h' !! e = relay_tasks h !! e.
Proof.
  intros Hne. unfold disconnect_nodes. cbn.
  rewrite !lookup_delete_ne by done.
  set (h1 := match sender2proxy_transports h !! (o, i) with
             | Some tid => close_unless_closing tid h
             | None => h
             end).
  set (h2 := match proxy2receiver_transports h !! (o, i) with
             | Some tid => close_unless_closing tid h1
             | None => h1
             end).
  set (h3 := match relay_tasks h !! (o, i) with
             | Some k => cancel_unless_cancelled k h2
             | None => h2
             end).
  assert (E1 : sender2proxy_transports h1 = sender2proxy_transports h
               /\ proxy2receiver_transports h1 = proxy2receiver_transports h
               /\ relay_tasks h1 = relay_tasks h).
  { subst h1. destruct (sender2proxy_transports h !! (o, i)); [|done].
    apply close_unless_closing_tables. }
  assert (E2 : sender2proxy_transports h2 = sender2proxy_transports h1
               /\ proxy2receiver_transports h2
                  = proxy2receiver_transports h1
               /\ relay_tasks h2 = relay_tasks h1).
  { subst h2. destruct (proxy2receiver_transports h !! (o, i)); [|done].
    apply close_unless_closing_tables. }
  assert (E3 : sender2proxy_transports h3 = sender2proxy_transports h2
               /\ proxy2receiver_transports h3
                  = proxy2receiver_transports h2
               /\ relay_tasks h3 = relay_tasks h2).
  { subst h3. destruct (relay_tasks h !! (o, i)); [|done].
    apply cancel_unless_cancelled_tables. }
  destruct E1 as (A1 & A2 & A3), E2 as (B1 & B2 & B3),
           E3 as (C1 & C2 & C3).
  rewrite C1, C2, C3, B1, B2, B3, A1, A2, A3. done.
Qed.

(** C8. For any state of the hub, after [disconnect_nodes(out, in)] the
    edge is in none of [sender2proxy_transports],
    [proxy2receiver_transports] and [relay_tasks]; running it a second
    time leaves the state as the first run left it; on an edge that is in
    none of the tables it changes nothing; and no run raises (the function
    is total). *)
Theorem disconnect_nodes_idempotent (h : NodesHub) (o i : nat) :
  let h' := disconnect_nodes h o i in
  sender2proxy_transports h' !! (o, i) = None
  /\ proxy2receiver_transports h' !! (o, i) = None
  /\ relay_tasks h' !! (o, i) = None
  /\ disconnect_nodes h' o i = h'
  /\ (sender2proxy_transports h !! (o, i) = None ->
      proxy2receiver_transports h !! (o, i) = None ->
      relay_tasks h !! (o, i) = None ->
      disconnect_nodes h o i = h).
Proof.
  cbv zeta.
  destruct (disconnect_nodes_removes h o i) as (Hs & Hr & Ht).
  repeat split; try done.
  - by apply disconnect_nodes_absent.
  - apply disconnect_nodes_absent.
Qed.

Lemma connect_from_transports_not_raised (h : NodesHub) (e : exception) :
  (connect_from_transports h).2 <> ConnectRaised e.
Proof.
  unfold connect_from_transports.
  destruct (pending_connection h); [|done]. by case_decide.
Qed.

(** [connect_nodes], once past its first [while], raises the
    [RuntimeError] exactly when the lock is free and one of the two tables
    has the edge; the lock is then left taken. *)
Lemma connect_from_lock_raises (h h' : NodesHub) (o i : nat) (e : edge) :
  connect_from_lock p2p_port h o i = (h', ConnectRaised (RuntimeError e))
  <-> e = (o, i)
      /\ h' = set_pending_connection (Some (o, i)) h
      /\ pending_connection h = None
      /\ (is_Some (sender2proxy_transports h !! (o, i))
          \/ is_Some (proxy2receiver_transports h !! (o, i))).
Proof.
  unfold connect_from_lock.
  destruct (pending_connection h) as [busy|] eqn:Hp.
  { split; [done | by intros (_ & _ & ? & _)]. }
  cbn [sender2proxy_transports proxy2receiver_transports
       set_pending_connection].
  case_decide as Hin.
  - split; [by intros [= <- <-] | by intros (-> & -> & _)].
  - split; [|by intros (_ & _ & _ & ?)].
    unfold connect_sender_to_proxy. case_decide; [|done].
    intros Hr. exfalso.
    eapply (connect_from_transports_not_raised _ (RuntimeError e)).
    by rewrite Hr.
Qed.

Lemma connect_nodes_raises (h h' : NodesHub) (a : connect_await)
    (o i : nat) (e : edge) :
  connect_nodes p2p_port h a o i = (h', ConnectRaised (RuntimeError e))
  <-> e = (o, i)
      /\ h' = set_pending_connection (Some (o, i)) h
      /\ acquires_lock h a = true
      /\ (is_Some (sender2proxy_transports h !! (o, i))
          \/ is_Some (proxy2receiver_transports h !! (o, i))).
Proof.
  destruct a; cbn [connect_nodes acquires_lock].
  - unfold connect_from_proxies. case_decide as Hsrv.
    + rewrite bool_decide_eq_true_2 by done.
      split; [done | by intros (_ & _ & ? & _)].
    + rewrite bool_decide_eq_false_2 by done. cbn [negb andb].
      rewrite connect_from_lock_raises, bool_decide_eq_true. done.
  - rewrite connect_from_lock_raises, bool_decide_eq_true. done.
  - split; [|by intros (_ & _ & ? & _)].
    intros Hr. exfalso.
    eapply (connect_from_transports_not_raised _ (RuntimeError e)).
    by rewrite Hr.
Qed.

(** C7. A resumption of [connect_nodes(out, in)] raises the
    [RuntimeError] 'already established' exactly when it takes the lock
    [pending_connection] and, at that time, [sender2proxy_transports] or
    [proxy2receiver_transports] has the edge (out, in); the error always
    names that edge; and in the state [disconnect_nodes(out, in)] leaves,
    no resumption of [connect_nodes(out, in)] raises it. *)
Theorem connect_nodes_raises_iff (h : NodesHub) (a : connect_await)
    (o i : nat) :
  ((connect_nodes p2p_port h a o i).2 = ConnectRaised (RuntimeError (o, i))
   <-> acquires_lock h a = true
       /\ (is_Some (sender2proxy_transports h !! (o, i))
           \/ is_Some (proxy2receiver_transports h !! (o, i))))
  /\ (forall e,
        (connect_nodes p2p_port h a o i).2 = ConnectRaised (RuntimeError e)
        -> e = (o, i))
  /\ (forall a',
        (connect_nodes p2p_port (disconnect_nodes h o i) a' o i).2
        <> ConnectRaised (RuntimeError (o, i))).
Proof.
  assert (Hiff : forall g b e,
             (connect_nodes p2p_port g b o i).2
             = ConnectRaised (RuntimeError e)
             <-> e = (o, i) /\ acquires_lock g b = true
                 /\ (is_Some (sender2proxy_transports g !! (o, i))
                     \/ is_Some (proxy2receiver_transports g !! (o, i)))).
  { intros g b e.
    destruct (connect_nodes p2p_port g b o i) as [g' st] eqn:Hrun.
    cbn [snd]. split.
    - intros ->. apply connect_nodes_raises in Hrun. tauto.
    - intros (-> & Hacq & Hin).
      assert (connect_nodes p2p_port g b o i
              = (set_pending_connection (Some (o, i)) g,
                 ConnectRaised (RuntimeError (o, i)))) as Hr
        by by apply connect_nodes_raises.
      rewrite Hr in Hrun. by injection Hrun as _ <-. }
  split; [|split].
  - rewrite Hiff. tauto.
  - intros e He. by apply Hiff in He as (-> & _).
  - intros a' Hr. apply Hiff in Hr as (_ & _ & Hin).
    destruct (disconnect_nodes_removes h o i) as (Hs & Hrr & _).
    cbv zeta in Hs, Hrr. rewrite Hs, Hrr in Hin.
    destruct Hin as [[? ?]|[? ?]]; done.
Qed.

(** C10. When a resumption of [connect_nodes(out, in)] raises the
    [RuntimeError], the lock was free before and holds (out, in)
    afterwards, nothing else of the hub having changed: the lock taken
    just before the test is not released by the [raise]. From then on
    every other [connect_nodes] stays at its second [while]. *)
Theorem connect_nodes_error_keeps_lock (h h' : NodesHub)
    (a : connect_await) (o i : nat) (e : edge) :
  connect_nodes p2p_port h a o i = (h', ConnectRaised (RuntimeError e)) ->
  pending_connection h = None
  /\ pending_connection h' = Some (o, i)
  /\ h' = set_pending_connection (Some (o, i)) h
  /\ h' <> h
  /\ (forall o' i',
        connect_nodes p2p_port h' AwaitLock o' i'
        = (h', ConnectSuspended AwaitLock)).
Proof.
  intros Hr. apply connect_nodes_raises in Hr as (-> & -> & Hacq & _).
  assert (Hfree : pending_connection h = None).
  { destruct a; cbn in Hacq; [|by apply bool_decide_eq_true in Hacq|done].
    apply andb_true_iff in Hacq as [_ Hacq].
    by apply bool_decide_eq_true in Hacq. }
  repeat split; try done.
  intros Heq. apply (f_equal pending_connection) in Heq.
  cbn in Heq. congruence.
Qed.

End Edges.

(** ** The map from ports to nodes *)

Section Ports.

Variable p2p_port : nat -> Z.

Hypothesis p2p_port_inj : forall a b, p2p_port a = p2p_port b -> a = b.

(** The map after the first [k] passes of the loop of
    [sync_start_proxies], started from the empty map. *)
Lemma registered_ports_spec (h : NodesHub) (k : nat) :
  (k <= nodes h)%nat ->
  let m := foldl (register_ports p2p_port h) ∅ (seq 0 k) in
  (forall port v,
      m !! port = Some v
      <-> (v < k)%nat
          /\ (port = get_node_port p2p_port v
              \/ port = get_proxy_port p2p_port h v))
  /\ size m = (2 * k)%nat.
Proof.
  unfold get_node_port, get_proxy_port.
  induction k as [|k IH]; intros Hk; cbv zeta.
  - split; [|done]. intros port v. cbn. rewrite lookup_empty.
    split; [done | lia].
  - destruct (IH ltac:(lia)) as [IHm IHs]. cbv zeta in IHm, IHs.
    rewrite seq_S, foldl_snoc. cbn [Nat.add].
    set (m := foldl (register_ports p2p_port h) ∅ (seq 0 k)) in *.
    unfold register_ports, get_node_port, get_proxy_port.
    assert (Hn : m !! p2p_port k = None).
    { destruct (m !! p2p_port k) as [v|] eqn:E; [|done].
      apply IHm in E as [Hv [E|E]]; apply p2p_port_inj in E; lia. }
    assert (Hp : m !! p2p_port (nodes h + 1 + k) = None).
    { destruct (m !! p2p_port (nodes h + 1 + k)) as [v|] eqn:E; [|done].
      apply IHm in E as [Hv [E|E]]; apply p2p_port_inj in E; lia. }
    assert (Hne : p2p_port k <> p2p_port (nodes h + 1 + k)).
    { intros E. apply p2p_port_inj in E. lia. }
    split.
    + intros port v. rewrite !lookup_insert.
      case_decide as E1; [|case_decide as E2].
      * subst port. split.
        -- intros [= <-]. split; [lia | by right].
        -- intros [Hv [E|E]]; apply p2p_port_inj in E; f_equal; lia.
      * subst port. split.
        -- intros [= <-]. split; [lia | by left].
        -- intros [Hv [E|E]]; apply p2p_port_inj in E; f_equal; lia.
      * rewrite IHm. split.
        -- intros [Hv Hport]. split; [lia | done].
        -- intros [Hv Hport]. split; [|done].
           destruct (decide (v = k)) as [->|]; [|lia].
           destruct Hport; congruence.
    + rewrite map_size_insert_None.
      * rewrite map_size_insert_None by done. lia.
      * by rewrite lookup_insert_ne.
Qed.

(** C9. With an injective port allocator, after [sync_start_proxies] has
    built [ports2node_map] (empty before) for the N nodes of the hub,
    every node index [i] below N has [get_node_port(i)] and
    [get_proxy_port(i)] mapped to [i], where [get_proxy_port(i)] is
    [get_node_port(N + 1 + i)]; the 2N ports are pairwise different keys:
    the map has exactly 2N entries, and each key is the node port or the
    proxy port of the node it maps to. *)
Theorem ports2node_map_after_start (h : NodesHub) :
  ports2node_map h = ∅ ->
  let h' := sync_start_proxies p2p_port h in
  (forall i, (i < nodes h)%nat ->
      ports2node_map h' !! get_node_port p2p_port i = Some i
      /\ ports2node_map h' !! get_proxy_port p2p_port h' i = Some i
      /\ get_proxy_port p2p_port h' i
         = get_node_port p2p_port (nodes h + 1 + i))
  /\ size (ports2node_map h') = (2 * nodes h)%nat
  /\ (forall port v,
        ports2node_map h' !! port = Some v
        <-> (v < nodes h)%nat
            /\ (port = get_node_port p2p_port v
                \/ port = get_proxy_port p2p_port h' v)).
Proof.
  intros Hempty.
  destruct (registered_ports_spec h (nodes h) ltac:(lia)) as [Hm Hs].
  cbv zeta in *. unfold sync_start_proxies. cbn. rewrite Hempty.
  split; [|split].
  - intros i Hi. split; [|split].
    + apply Hm. split; [done | by left].
    + apply Hm. split; [done | by right].
    + reflexivity.
  - exact Hs.
  - exact Hm.
Qed.

End Ports.

(** C9 for the hub of two nodes of the sample environment. *)
Lemma ports2node_map_after_start_witness :
  ports2node_map Sample.started_hub !! 11000 = Some 0%nat
  /\ ports2node_map Sample.started_hub !! 11003 = Some 0%nat
  /\ size (ports2node_map Sample.started_hub) = 4%nat.
Proof.
  destruct (ports2node_map_after_start Sample.p2p_port
              ltac:(unfold Sample.p2p_port; intros a b; lia)
              (init 2) eq_refl) as (H1 & H2 & _).
  destruct (H1 0%nat ltac:(simpl; lia)) as (Ha & Hb & _).
  split; [exact Ha|]. split; [exact Hb|]. exact H2.
Defined.

(** C10 at the hub [Sample.linked_hub], where the edge (0, 1) is open and
    [connect_nodes(0, 1)] is started. *)
Lemma connect_nodes_error_keeps_lock_witness :
  pending_connection Sample.linked_hub = None
  /\ pending_connection
       (set_pending_connection (Some (0, 1)%nat) Sample.linked_hub)
     = Some (0, 1)%nat.
Proof.
  destruct (connect_nodes_error_keeps_lock Sample.p2p_port
              Sample.linked_hub
              (set_pending_connection (Some (0, 1)%nat) Sample.linked_hub)
              AwaitProxies 0 1 (0, 1)%nat)
    as (H1 & H2 & _).
  - vm_compute. reflexivity.
  - split; [exact H1 | exact H2].
Defined.

(** * Further properties of the scanner *)

Module PyMore.

Import Py.

Lemma byte_val_zero (b : byte) : byte_val b = 0 -> b = x00.
Proof.
  unfold byte_val. intros Hb.
  assert (Hn : Byte.to_N b = 0%N) by lia.
  pose proof (Byte.of_to_N b) as Ho. rewrite Hn in Ho.
  cbn in Ho. by injection Ho.
Qed.

Lemma byte_of_Z_val (b : byte) : byte_of_Z (byte_val b) = b.
Proof.
  unfold byte_of_Z. pose proof (PyFacts.byte_val_range b) as Hr.
  rewrite Z.mod_small by lia. unfold byte_val. rewrite N2Z.id.
  by rewrite Byte.of_to_N.
Qed.

(** What [unpack('!H', s)] reads packs back to [s]. *)
Lemma pack_unpack_be_u16 (s : bytes) (v : Z) :
  unpack_be_u16 s = Ok v -> pack_be_u16 v = Ok s.
Proof.
  destruct s as [|hi [|lo [|? ?]]]; simpl; try done.
  intros [= <-].
  pose proof (PyFacts.byte_val_range hi). pose proof (PyFacts.byte_val_range lo).
  rewrite PyFacts.pack_be_u16_in_range by lia.
  assert ((256 * byte_val hi + byte_val lo) / 256 = byte_val hi) as ->.
  { rewrite Z.mul_comm, Z.div_add_l by lia.
    rewrite Z.div_small by lia. lia. }
  rewrite byte_of_Z_val. do 3 f_equal.
  rewrite <- (byte_of_Z_val lo) at 2. unfold byte_of_Z. do 3 f_equal.
  rewrite Z.add_comm, Z.mul_comm, Z.mod_add by lia. done.
Qed.

Lemma unpack_be_u16_range (s : bytes) (v : Z) :
  unpack_be_u16 s = Ok v -> 0 <= v <= 65535.
Proof.
  destruct s as [|hi [|lo [|? ?]]]; simpl; try done.
  intros [= <-].
  pose proof (PyFacts.byte_val_range hi). pose proof (PyFacts.byte_val_range lo).
  lia.
Qed.

Lemma unpack_be_u16_short (s : bytes) :
  length s <> 2%nat -> unpack_be_u16 s = Raise StructError.
Proof. destruct s as [|hi [|lo [|? ?]]]; simpl; done. Qed.

Lemma pack_be_u16_out_of_range (v : Z) :
  ~ (0 <= v <= 65535) -> pack_be_u16 v = Raise StructError.
Proof.
  intros Hv. unfold pack_be_u16.
  destruct (Z.leb_spec 0 v), (Z.leb_spec v 65535); simpl; (done || lia).
Qed.

(** A list is its first 70 elements, the two at 70 and 71, and the rest. *)
Lemma split_at_port {A} (V : list A) :
  (72 <= length V)%nat ->
  slice None (Some 70) V ++ slice (Some 70) (Some 72) V
  ++ slice (Some 72) None V = V.
Proof.
  intros HV.
  rewrite PyFacts.slice_to by (unfold len; lia).
  rewrite PyFacts.slice_from by (unfold len; lia).
  rewrite PyFacts.slice_between by (unfold len; lia).
  change (Z.to_nat 70) with 70%nat. change (Z.to_nat 72) with 72%nat.
  change (Z.to_nat (72 - 70)) with 2%nat.
  rewrite <- (take_drop 70 V) at 4. f_equal.
  rewrite <- (take_drop 2 (drop 70 V)) at 2. f_equal.
  by rewrite drop_drop.
Qed.

End PyMore.

Section ScannerMore.

Variable p2p_port : nat -> Z.
Variable hash256 : bytes -> bytes.

Abbreviation process_frame' := (process_frame p2p_port hash256).
Abbreviation process_buffer' := (process_buffer p2p_port hash256).
Abbreviation scanner_output' := (scanner_output p2p_port hash256).
Abbreviation get_proxy_port' := (get_proxy_port p2p_port).

(** A pass over a buffer that starts with a complete [version] message. *)
Lemma version_frame_pass (h : NodesHub) (header V rest : bytes) :
  version_header_of header V ->
  (0 < length (V ++ rest))%nat ->
  process_frame' h (header ++ V ++ rest) =
  match
    node_port <- Py.unpack_be_u16 (Py.slice (Some 70) (Some 72) V);;
    proxy_port <- (if decide (node_port <> 0) then
                     match ports2node_map h !! node_port with
                     | Some node => Ok (get_proxy_port' h node)
                     | None => Raise KeyError
                     end
                   else Ok 0);;
    packed <- Py.pack_be_u16 proxy_port;;
    Ok (Py.slice None (Some 70) V ++ packed ++ Py.slice (Some 72) None V)
  with
  | Raise e => Fail e
  | Ok msg' =>
      Written (take 20 header ++ Py.slice None (Some 4) (hash256 msg')
               ++ msg') rest
  end.
Proof.
  intros (Hh & Hcmd & Hlen) Hmore. rewrite length_app in Hmore.
  destruct (frame_slices header V rest Hh) as (S1 & S2 & S3 & S4 & S5 & _).
  rewrite process_frame_eq.
  assert ((Py.len (header ++ V ++ rest) >? 24) = true) as ->.
  { rewrite Z.gtb_ltb. apply Z.ltb_lt.
    unfold Py.len. rewrite !length_app. lia. }
  rewrite S1, Hlen. cbn zeta.
  assert ((Py.len (header ++ V ++ rest) <? 24 + Py.len V) = false) as ->.
  { apply Z.ltb_ge. unfold Py.len. rewrite !length_app. lia. }
  rewrite S2, Hcmd, S3, S4, S5. rewrite decide_True by done.
  destruct (bind _ _) as [msg'|e]; [|done].
  by rewrite <- app_assoc.
Qed.

(** X1. A [version] message that advertises port 0 is written with its
    payload as it came and the checksum computed anew; [ports2node_map] is
    not consulted. *)
Theorem zero_port_version_frame (h : NodesHub) (header V rest : bytes) :
  version_header_of header V ->
  Py.unpack_be_u16 (Py.slice (Some 70) (Some 72) V) = Ok 0 ->
  process_frame' h (header ++ V ++ rest)
  = Written (take 20 header ++ Py.slice None (Some 4) (hash256 V) ++ V) rest.
Proof.
  intros Hhdr Hport.
  assert (HV : (72 <= length V)%nat).
  { apply PyFacts.unpack_be_u16_length in Hport.
    rewrite PyFacts.length_slice in Hport by lia. unfold Py.len in Hport.
    lia. }
  rewrite version_frame_pass by (rewrite ?length_app; done || lia).
  rewrite Hport. cbn [bind]. rewrite decide_False by (intros ?; done).
  cbn [bind].
  assert (Hpack : Py.pack_be_u16 0 = Ok (Py.slice (Some 70) (Some 72) V))
    by by apply PyMore.pack_unpack_be_u16.
  rewrite Hpack. cbn [bind].
  by rewrite PyMore.split_at_port.
Qed.

(** X2. A complete [version] message whose payload has fewer than 72 bytes
    makes [process_buffer] raise [struct.error] at the [unpack] of the port,
    with nothing written for it, whenever the buffer has more than the 24
    bytes of its header, that is when the message has a payload or a byte
    follows it; a [version] header that announces an empty payload and
    stands alone in the buffer is handed back unread. *)
Theorem short_version_payload_raises (h : NodesHub)
    (header V rest : bytes) :
  version_header_of header V ->
  (length V < 72)%nat ->
  process_frame' h (header ++ V ++ rest)
  = (if decide (V ++ rest = []) then Return (PyBytes header)
     else Fail StructError)
  /\ (forall fuel tid,
        process_buffer' (S fuel) h (header ++ V ++ rest) tid
        = (h, if decide (V ++ rest = []) then Returned (PyBytes header)
              else Raised StructError)).
Proof.
  intros Hhdr HV.
  assert (Hstep : process_frame' h (header ++ V ++ rest)
                  = (if decide (V ++ rest = []) then Return (PyBytes header)
                     else Fail StructError)).
  { case_decide as Hempty.
    - rewrite Hempty, app_nil_r. rewrite process_frame_eq.
      destruct Hhdr as (Hh & _).
      destruct (Z.gtb_spec (Py.len header) 24) as [Hgt|]; [|done].
      unfold Py.len in Hgt. lia.
    - rewrite version_frame_pass; [|done|].
      + rewrite PyMore.unpack_be_u16_short; [done|].
        rewrite PyFacts.length_slice by lia. unfold Py.len. lia.
      + destruct (V ++ rest); [done | simpl; lia]. }
  split; [done|]. intros fuel tid. rewrite process_buffer_S, Hstep.
  by case_decide.
Qed.

(** X3. When the proxy port of the advertised node does not fit in 16 bits,
    the [pack] of the new port raises [struct.error] and nothing is written
    for the message. *)
Theorem wide_proxy_port_raises (h : NodesHub) (header V rest : bytes)
    (p : Z) (node : nat) :
  version_header_of header V ->
  Py.unpack_be_u16 (Py.slice (Some 70) (Some 72) V) = Ok p ->
  p <> 0 ->
  ports2node_map h !! p = Some node ->
  ~ (0 <= get_proxy_port' h node <= 65535) ->
  process_frame' h (header ++ V ++ rest) = Fail StructError
  /\ (forall fuel tid,
        process_buffer' (S fuel) h (header ++ V ++ rest) tid
        = (h, Raised StructError)).
Proof.
  intros Hhdr Hport Hp Hmap Hwide.
  assert (HV : (72 <= length V)%nat).
  { apply PyFacts.unpack_be_u16_length in Hport.
    rewrite PyFacts.length_slice in Hport by lia. unfold Py.len in Hport.
    lia. }
  assert (Hstep : process_frame' h (header ++ V ++ rest) = Fail StructError).
  { rewrite version_frame_pass by (rewrite ?length_app; done || lia).
    rewrite Hport. cbn [bind]. rewrite decide_True by done.
    rewrite Hmap. cbn [bind].
    by rewrite PyMore.pack_be_u16_out_of_range. }
  split; [done|]. intros fuel tid. by rewrite process_buffer_S, Hstep.
Qed.

(** X4. The scanner reads only [len(self.nodes)] and [ports2node_map] of the
    hub: two hubs that agree on them give the same pass on every buffer and
    the same sequence of writes. *)
Theorem scanner_reads_only_ports (h1 h2 : NodesHub) :
  nodes h1 = nodes h2 ->
  ports2node_map h1 = ports2node_map h2 ->
  (forall buffer, process_frame' h1 buffer = process_frame' h2 buffer)
  /\ (forall fuel buffer,
        scanner_output' fuel h1 buffer = scanner_output' fuel h2 buffer)
  /\ (forall fuel buffer tid,
        (process_buffer' fuel h1 buffer tid).2
        = (process_buffer' fuel h2 buffer tid).2).
Proof.
  intros Hn Hm.
  assert (Hstep : forall g1 g2 buffer,
             nodes g1 = nodes g2 -> ports2node_map g1 = ports2node_map g2 ->
             process_frame' g1 buffer = process_frame' g2 buffer).
  { intros g1 g2 buffer E1 E2.
    rewrite !process_frame_eq. unfold get_proxy_port. by rewrite E1, E2. }
  split; [|split].
  - intros buffer. by apply Hstep.
  - induction fuel as [|fuel IH]; intros buffer; [done|].
    cbn. rewrite (Hstep h1 h2) by done.
    destruct (process_frame' h2 buffer); [done| |done]. by rewrite IH.
  - intros fuel. revert h1 h2 Hn Hm.
    induction fuel as [|fuel IH]; intros h1 h2 Hn Hm buffer tid; [done|].
    rewrite !process_buffer_S. rewrite (Hstep h1 h2) by done.
    destruct (process_frame' h2 buffer) as [v|out rest|e]; [done| |done].
    by apply IH.
Qed.

(** A run of complete messages other than [version], each with a payload
    or followed by at least one more byte, is consumed message by
    message. *)
Lemma plain_frames_consumed (h : NodesHub) (frames : list (bytes * bytes))
    (tail : bytes) :
  Forall (fun f => plain_frame f.1 f.2) frames ->
  (forall before f behind,
      frames = before ++ f :: behind ->
      f.2 <> []
      \/ concat (map (fun f => f.1 ++ f.2) behind) ++ tail <> []) ->
  consumed p2p_port hash256 h
    (concat (map (fun f => f.1 ++ f.2) frames) ++ tail)
    (map (fun f => f.1 ++ f.2) frames) tail.
Proof.
  induction frames as [|[header payload] frames IH]; intros Hpl Hne.
  - apply consumed_nil.
  - apply Forall_cons in Hpl as [(Hh & Hcmd & Hlen) Hpl].
    cbn [map concat fst snd] in *.
    eapply consumed_cons.
    + rewrite <- !app_assoc.
      apply other_frame_forwarded; try done.
      rewrite length_app.
      destruct (Hne [] (header, payload) frames eq_refl) as [Hp|Ht];
        cbn [fst snd] in *.
      * destruct payload; [done | simpl; lia].
      * destruct (concat _ ++ tail); [done | simpl; lia].
    + apply IH; [done|].
      intros before f behind ->.
      by apply (Hne ((header, payload) :: before) f behind).
Qed.

(** X5. Messages in one buffer. When the buffer is a run of complete
    messages other than [version] followed by at most 24 more bytes, and
    every message has a payload or is followed by a byte (of a next message
    or of these last bytes), [process_buffer] writes the messages one by
    one, each as it came and in order, and returns the bytes behind them:
    nothing is lost, added or reordered. *)
Theorem plain_frames_forwarded (h : NodesHub) (frames : list (bytes * bytes))
    (tail : bytes) :
  Forall (fun f => plain_frame f.1 f.2) frames ->
  (forall before f behind,
      frames = before ++ f :: behind ->
      f.2 <> []
      \/ concat (map (fun f => f.1 ++ f.2) behind) ++ tail <> []) ->
  (length tail <= 24)%nat ->
  let outs := map (fun f => f.1 ++ f.2) frames in
  let buffer := concat outs ++ tail in
  (forall fuel,
      scanner_output' (length frames + S fuel) h buffer = outs)
  /\ (forall fuel tid,
        process_buffer' (length frames + S fuel) h buffer tid
        = (foldl (fun g o => write_to tid o g) h outs,
           Returned (PyBytes tail))).
Proof.
  intros Hpl Hne Htail outs buffer.
  pose proof (plain_frames_consumed h frames tail Hpl Hne) as Hc.
  fold outs in Hc. fold buffer in Hc.
  assert (Hlen : length outs = length frames) by apply length_map.
  assert (Hret : forall g, process_frame' g tail = Return (PyBytes tail)).
  { intros g. rewrite process_frame_eq.
    destruct (Z.gtb_spec (Py.len tail) 24) as [Hgt|]; [|done].
    unfold Py.len in Hgt. lia. }
  split.
  - intros fuel. rewrite <- Hlen.
    rewrite (scanner_output_consumed _ _ _ _ _ _ _ Hc).
    cbn. rewrite Hret. apply app_nil_r.
  - intros fuel tid. rewrite <- Hlen.
    rewrite (process_buffer_consumed _ _ _ _ _ _ _ _ Hc).
    by rewrite process_buffer_S, Hret.
Qed.

(** X6. After [sync_start_proxies] (injective port allocator, map empty
    before), a [version] message that advertises the real port or the proxy
    port of node [i] is written advertising the proxy port of node [i]; a
    message that already advertises the proxy port keeps its payload, so
    that a second passage through the hub changes nothing but the
    checksum field, which is computed over the same payload. *)
Theorem started_hub_advertises_proxy_port (h : NodesHub)
    (header V rest : bytes) (p : Z) (i : nat) :
  (forall a b, p2p_port a = p2p_port b -> a = b) ->
  ports2node_map h = ∅ ->
  (i < nodes h)%nat ->
  version_header_of header V ->
  Py.unpack_be_u16 (Py.slice (Some 70) (Some 72) V) = Ok p ->
  p <> 0 ->
  p = get_node_port p2p_port i
  \/ p = get_proxy_port' (sync_start_proxies p2p_port h) i ->
  0 <= get_proxy_port' (sync_start_proxies p2p_port h) i <= 65535 ->
  let h' := sync_start_proxies p2p_port h in
  let port := get_proxy_port' h' i in
  let V' := Py.slice None (Some 70) V
            ++ [Py.byte_of_Z (port / 256); Py.byte_of_Z port]
            ++ Py.slice (Some 72) None V in
  process_frame' h' (header ++ V ++ rest)
  = Written (take 20 header ++ Py.slice None (Some 4) (hash256 V') ++ V')
      rest
  /\ Py.unpack_be_u16 (Py.slice (Some 70) (Some 72) V') = Ok port
  /\ (p = port -> V' = V).
Proof.
  intros Hinj Hempty Hi Hhdr Hport Hp Hwhich Hrange h' port V'.
  assert (HV : (72 <= length V)%nat).
  { apply PyFacts.unpack_be_u16_length in Hport.
    rewrite PyFacts.length_slice in Hport by lia. unfold Py.len in Hport.
    lia. }
  assert (Hmap : ports2node_map h' !! p = Some i).
  { destruct (registered_ports_spec p2p_port Hinj h (nodes h) ltac:(lia))
      as [Hm _].
    subst h'. unfold sync_start_proxies. cbn. rewrite Hempty.
    apply Hm. split; [done|]. destruct Hwhich as [->| ->]; [by left|by right]. }
  assert (Hpack : Py.pack_be_u16 port
                  = Ok [Py.byte_of_Z (port / 256); Py.byte_of_Z port])
    by by apply PyFacts.pack_be_u16_in_range.
  split; [|split].
  - rewrite version_frame_pass by (rewrite ?length_app; done || lia).
    rewrite Hport. cbn [bind]. rewrite decide_True by done.
    rewrite Hmap. cbn [bind]. fold port. rewrite Hpack. done.
  - destruct (rewritten_payload V
                [Py.byte_of_Z (port / 256); Py.byte_of_Z port] HV eq_refl)
      as (_ & _ & Hs).
    unfold V'. rewrite Hs. by apply PyFacts.unpack_pack_be_u16.
  - intros ->. subst V'.
    apply PyMore.pack_unpack_be_u16 in Hport. rewrite Hpack in Hport.
    injection Hport as ->. by apply PyMore.split_at_port.
Qed.

End ScannerMore.

(** * Further properties of the protocol classes *)

Section Handlers.

Variable p2p_port : nat -> Z.
Variable hash256 : bytes -> bytes.

Abbreviation relay_step := (relay_received_data p2p_port hash256).
Abbreviation NodeProxy_handle := (NodeProxy_handle_received_data p2p_port hash256).
Abbreviation ProxyRelay_handle := (ProxyRelay_handle_received_data p2p_port hash256).

Lemma only_writes_to_refl (dest : option nat) (h : NodesHub) :
  only_writes_to dest h h.
Proof.
  split; [by destruct h|]. split; [done|].
  intros t [c w] _ Ht. exists []. by rewrite app_nil_r.
Qed.

Lemma process_buffer_only_writes (fuel : nat) (h : NodesHub)
    (buffer : bytes) (tid : nat) :
  only_writes_to (Some tid) h
    (process_buffer p2p_port hash256 fuel h buffer tid).1.
Proof.
  revert h buffer. induction fuel as [|fuel IH]; intros h buffer.
  { apply only_writes_to_refl. }
  rewrite process_buffer_S.
  destruct (process_frame p2p_port hash256 h buffer) as [v|out rest|e];
    try apply only_writes_to_refl.
  destruct (IH (write_to tid out h) rest) as (E & Ho & Hd).
  set (h' := (process_buffer p2p_port hash256 fuel (write_to tid out h)
                rest tid).1) in *.
  split; [|split].
  - rewrite E. reflexivity.
  - intros t Ht. rewrite Ho by done. cbn.
    apply list_lookup_alter_ne. congruence.
  - intros t tr [= <-] Htr.
    destruct (Hd tid (transport_write out tr) eq_refl) as [outs Houts].
    { cbn. by rewrite list_lookup_alter_eq, Htr. }
    exists (out :: outs). rewrite Houts. cbn. by rewrite <- app_assoc.
Qed.

Lemma relay_step_only_writes (fuel : nat) (h : NodesHub) (dest : option nat)
    (recvbuf : pyval) (data : bytes) :
  only_writes_to dest h (relay_step fuel h dest recvbuf data).1.1.
Proof.
  unfold relay_received_data.
  destruct (Py.len data >? 0); [|apply only_writes_to_refl].
  destruct recvbuf as [|b]; [apply only_writes_to_refl|].
  destruct dest as [tid|]; [|apply only_writes_to_refl].
  pose proof (process_buffer_only_writes fuel h (b ++ data) tid) as H.
  destruct (process_buffer p2p_port hash256 fuel h (b ++ data) tid)
    as [h' [v|e|]]; exact H.
Qed.

(** X7. Whatever they receive, the two [__handle_received_data] coroutines
    change nothing of the hub but the transport they relay to, to which they
    only append writes: every table, the lock, the tasks and every other
    transport stay as they are, and the destination keeps its closing flag
    and what was written to it before. [NodeProxy] relays to the
    [proxy2receiver_transports] entry of its edge, [ProxyRelay] to the
    [sender2proxy_transports] entry. *)
Theorem handlers_only_write_to_destination (fuel : nat) (h : NodesHub)
    (a : handler_await) (data : bytes) :
  (forall np,
      only_writes_to
        (e ← np_sender2receiver_pair np; proxy2receiver_transports h !! e)
        h (NodeProxy_handle fuel h np a data).1.1)
  /\ (forall pr,
        only_writes_to
          (sender2proxy_transports h !! pr_sender2receiver_pair pr)
          h (ProxyRelay_handle fuel h pr a data).1.1).
Proof.
  split.
  - intros np. unfold NodeProxy_handle_received_data.
    pose proof (relay_step_only_writes fuel h
                  (e ← np_sender2receiver_pair np;
                   proxy2receiver_transports h !! e)
                  (np_recvbuf np) data) as H.
    destruct (relay_step fuel h _ (np_recvbuf np) data) as [[h' buf] st].
    destruct a; [|exact H].
    destruct (negb _); [apply only_writes_to_refl|].
    destruct (pair_delayed _ _); [apply only_writes_to_refl | exact H].
  - intros pr. unfold ProxyRelay_handle_received_data.
    pose proof (relay_step_only_writes fuel h
                  (sender2proxy_transports h !! pr_sender2receiver_pair pr)
                  (pr_recvbuf pr) data) as H.
    destruct (relay_step fuel h _ (pr_recvbuf pr) data) as [[h' buf] st].
    destruct a; [|exact H].
    destruct (negb _); [apply only_writes_to_refl|].
    destruct (pair_delayed _ _); [apply only_writes_to_refl | exact H].
Qed.

Lemma len_pos_nonempty (data : bytes) : data <> [] -> (Py.len data >? 0) = true.
Proof.
  intros Hd. rewrite Z.gtb_ltb. apply Z.ltb_lt. unfold Py.len.
  destruct data; [done | simpl; lia].
Qed.

(** X8. A message that arrives in two pieces. Take a complete message
    other than [version], with a payload that is not empty, cut in two
    pieces of which the first has at most 24 bytes, and a [NodeProxy] with
    an empty [recvbuf] whose receiver-side transport is registered, resumed
    after its waits. On the first piece it keeps the piece in [recvbuf] and
    writes nothing; on the second it writes the whole message to the
    receiver-side transport and [recvbuf] is empty again. *)
Theorem split_frame_forwarded (h : NodesHub) (e : edge) (tid : nat)
    (header payload first second : bytes) :
  plain_frame header payload ->
  payload <> [] ->
  proxy2receiver_transports h !! e = Some tid ->
  first ++ second = header ++ payload ->
  (length first <= 24)%nat ->
  (forall fuel,
      NodeProxy_handle (S fuel) h (mkNodeProxy (Some e) (PyBytes []))
        AwaitDelay first
      = (h, mkNodeProxy (Some e) (PyBytes first), HandlerDone))
  /\ (forall fuel,
        NodeProxy_handle (S (S fuel)) h
          (mkNodeProxy (Some e) (PyBytes first)) AwaitDelay second
        = (write_to tid (header ++ payload) h,
           mkNodeProxy (Some e) (PyBytes []), HandlerDone)).
Proof.
  intros (Hh & Hcmd & Hlen) Hpayload Hdest Hsplit Hfirst.
  assert (Hsecond : second <> []).
  { intros ->. rewrite app_nil_r in Hsplit.
    apply (f_equal length) in Hsplit. rewrite !length_app in *.
    destruct payload; [done | simpl in *; lia]. }
  split; intros fuel; unfold NodeProxy_handle_received_data; cbn;
    rewrite Hdest; unfold relay_received_data.
  - destruct first as [|c first]; [done|].
    rewrite len_pos_nonempty by done.
    cbn [app]. rewrite short_buffer_returned by (unfold Py.len; lia). done.
  - rewrite len_pos_nonempty by done.
    rewrite Hsplit. rewrite <- (app_nil_r payload) at 1.
    rewrite (process_buffer_written _ _ _ _ _ (header ++ payload) []).
    + rewrite short_buffer_returned by (unfold Py.len; simpl; lia). done.
    + apply other_frame_forwarded; try done.
      rewrite app_nil_r. destruct payload; [done | simpl; lia].
Qed.

(** X9. The delay of a direction. After [set_nodes_delay(out, in, delay)]
    with a delay that is not zero, and with the peer transports registered,
    [NodeProxy] of the edge (out, in) and [ProxyRelay] of the edge (in, out)
    go to sleep before relaying, the hub and their buffers untouched; with a
    delay of zero both relay at once, as they do after the sleep. The delay
    entries of the other edges, (in, out) among them, are not changed. *)
Theorem delay_of_a_direction (fuel : nat) (h : NodesHub) (o i : nat)
    (delay : Q) (data : bytes) :
  let h' := set_nodes_delay h o i delay in
  (forall np,
      np_sender2receiver_pair np = Some (o, i) ->
      is_Some (proxy2receiver_transports h !! (o, i)) ->
      NodeProxy_handle fuel h' np AwaitPeer data
      = if Qeq_bool delay 0
        then NodeProxy_handle fuel h' np AwaitDelay data
        else (h', np, HandlerSuspended AwaitDelay))
  /\ (forall pr,
        pr_sender2receiver_pair pr = (i, o) ->
        is_Some (sender2proxy_transports h !! (i, o)) ->
        ProxyRelay_handle fuel h' pr AwaitPeer data
        = if Qeq_bool delay 0
          then ProxyRelay_handle fuel h' pr AwaitDelay data
          else (h', pr, HandlerSuspended AwaitDelay))
  /\ (forall e, e <> (o, i) ->
        node2node_delays h' !! e = node2node_delays h !! e).
Proof.
  cbv zeta. unfold set_nodes_delay.
  split; [|split].
  3: { intros e He. destruct (Qeq_bool delay 0); cbn.
       - by rewrite lookup_delete_ne.
       - by rewrite lookup_insert_ne. }
  - intros np Hpair Hpeer.
    unfold NodeProxy_handle_received_data. rewrite Hpair.
    destruct (Qeq_bool delay 0); cbn [pair_in pair_delayed
      proxy2receiver_transports node2node_delays set_node2node_delays];
      rewrite (bool_decide_eq_true_2 _ Hpeer); cbn [negb].
    + by rewrite lookup_delete_eq, bool_decide_eq_false_2
        by (intros [? ?]; done).
    + by rewrite lookup_insert_eq, bool_decide_eq_true_2 by eauto.
  - intros pr Hpair Hpeer.
    unfold ProxyRelay_handle_received_data, pr_receiver2sender_pair.
    rewrite Hpair.
    destruct (Qeq_bool delay 0); cbn [pair_in pair_delayed fst snd
      sender2proxy_transports node2node_delays set_node2node_delays];
      rewrite (bool_decide_eq_true_2 _ Hpeer); cbn [negb].
    + by rewrite lookup_delete_eq, bool_decide_eq_false_2
        by (intros [? ?]; done).
    + by rewrite lookup_insert_eq, bool_decide_eq_true_2 by eauto.
Qed.


End Handlers.

(** * Further properties of the edges *)

Section EdgesMore.

Variable p2p_port : nat -> Z.

Lemma close_unless_closing_lookup (tid : nat) (h : NodesHub) (t : nat) :
  transports (close_unless_closing tid h) !! t
  = if decide (t = tid) then transport_close <$> transports h !! t
    else transports h !! t.
Proof.
  unfold close_unless_closing.
  destruct (transports h !! tid) as [tr|] eqn:Htr.
  - destruct (closing tr) eqn:Hc.
    + case_decide as E; [|done]. subst t. rewrite Htr. cbn.
      destruct tr as [c w]. cbn in Hc. by subst c.
    + cbn. case_decide as E.
      * subst t. rewrite Htr. cbn. apply list_lookup_insert_eq.
        by eapply lookup_lt_Some.
      * by apply list_lookup_insert_ne.
  - case_decide as E; [|done]. subst t. by rewrite Htr.
Qed.

Lemma cancel_unless_cancelled_lookup (k : nat) (h : NodesHub) (j : nat) :
  tasks (cancel_unless_cancelled k h) !! j
  = if decide (j = k) then task_cancel <$> tasks h !! j else tasks h !! j.
Proof.
  unfold cancel_unless_cancelled.
  destruct (tasks h !! k) as [st|] eqn:Hst.
  - destruct (task_is_cancelled st) eqn:Hc.
    + case_decide as E; [|done]. subst j. rewrite Hst. cbn.
      by destruct st.
    + cbn. case_decide as E.
      * subst j. rewrite Hst. cbn. apply list_lookup_insert_eq.
        by eapply lookup_lt_Some.
      * by apply list_lookup_insert_ne.
  - case_decide as E; [|done]. subst j. by rewrite Hst.
Qed.

(** What [close_unless_closing] and [cancel_unless_cancelled] leave alone. *)
Lemma close_unless_closing_rest (tid : nat) (h : NodesHub) :
  close_unless_closing tid h
  = set_transports (transports (close_unless_closing tid h)) h.
Proof.
  unfold close_unless_closing.
  destruct (transports h !! tid) as [tr|]; [|by destruct h].
  destruct (closing tr); [by destruct h | done].
Qed.

Lemma cancel_unless_cancelled_rest (k : nat) (h : NodesHub) :
  cancel_unless_cancelled k h
  = set_tasks (tasks (cancel_unless_cancelled k h)) h.
Proof.
  unfold cancel_unless_cancelled.
  destruct (tasks h !! k) as [st|]; [|by destruct h].
  destruct (task_is_cancelled st); [by destruct h | done].
Qed.

(** The transports, tasks and other fields after [disconnect_nodes]. *)
Lemma disconnect_nodes_effect (h : NodesHub) (o i : nat) :
  let h' := disconnect_nodes h o i in
  (forall t,
      transports h' !! t
      = if decide (sender2proxy_transports h !! (o, i) = Some t
                   \/ proxy2receiver_transports h !! (o, i) = Some t)
        then transport_close <$> transports h !! t
        else transports h !! t)
  /\ (forall k,
        tasks h' !! k
        = if decide (relay_tasks h !! (o, i) = Some k)
          then task_cancel <$> tasks h !! k
          else tasks h !! k)
  /\ node2node_delays h' = node2node_delays h
  /\ pending_connection h' = pending_connection h
  /\ ports2node_map h' = ports2node_map h
  /\ rpc_log h' = rpc_log h
  /\ nodes h' = nodes h
  /\ proxy_servers h' = proxy_servers h.
Proof.
  cbv zeta. unfold disconnect_nodes.
  set (h1 := match sender2proxy_transports h !! (o, i) with
             | Some tid => close_unless_closing tid h
             | None => h
             end).
  set (h2 := match proxy2receiver_transports h !! (o, i) with
             | Some tid => close_unless_closing tid h1
             | None => h1
             end).
  set (h3 := match relay_tasks h !! (o, i) with
             | Some k => cancel_unless_cancelled k h2
             | None => h2
             end).
  cbn.
  assert (E1 : h1 = set_transports (transports h1) h).
  { subst h1. destruct (sender2proxy_transports h !! (o, i));
      [apply close_unless_closing_rest | by destruct h]. }
  assert (E2 : h2 = set_transports (transports h2) h).
  { subst h2. destruct (proxy2receiver_transports h !! (o, i)).
    - rewrite close_unless_closing_rest. by rewrite E1 at 2.
    - exact E1. }
  assert (E3 : h3 = set_tasks (tasks h3) h2).
  { subst h3. destruct (relay_tasks h !! (o, i));
      [apply cancel_unless_cancelled_rest | by destruct h2]. }
  assert (T1 : forall t,
             transports h1 !! t
             = if decide (sender2proxy_transports h !! (o, i) = Some t)
               then transport_close <$> transports h !! t
               else transports h !! t).
  { intros t. subst h1.
    destruct (sender2proxy_transports h !! (o, i)) as [s|].
    - rewrite close_unless_closing_lookup.
      repeat case_decide; congruence.
    - by rewrite decide_False. }
  assert (T2 : forall t,
             transports h2 !! t
             = if decide (sender2proxy_transports h !! (o, i) = Some t
                          \/ proxy2receiver_transports h !! (o, i) = Some t)
               then transport_close <$> transports h !! t
               else transports h !! t).
  { intros t. subst h2.
    destruct (proxy2receiver_transports h !! (o, i)) as [r|].
    - rewrite close_unless_closing_lookup, !T1.
      destruct (transports h !! t) as [[c w]|];
        destruct (decide (t = r)) as [D1|D1],
                 (decide (sender2proxy_transports h !! (o, i) = Some t))
                   as [D2|D2],
                 (decide (_ \/ _)) as [D3|D3];
        try done; exfalso; try (apply D3; by auto);
        destruct D3 as [?|[= ?]]; done.
    - rewrite T1.
      destruct (decide (sender2proxy_transports h !! (o, i) = Some t))
        as [D2|D2], (decide (_ \/ _)) as [D3|D3];
        try done; exfalso; try (apply D3; by auto);
        destruct D3 as [?|?]; done. }
  rewrite E3. cbn. split; [|split].
  - exact T2.
  - intros k. subst h3.
    destruct (relay_tasks h !! (o, i)) as [k'|].
    + rewrite cancel_unless_cancelled_lookup. rewrite E2. cbn.
      repeat case_decide; congruence.
    + rewrite decide_False by done. by rewrite E2.
  - by rewrite E2.
Qed.

(** X12. While another [connect_nodes] holds the lock, a resumption of
    [connect_nodes] before its third loop changes nothing and stays
    suspended before the lock; a resumption at the third loop releases the
    lock, and ends, exactly when both tables have the edge the lock names,
    and otherwise changes nothing. *)
Theorem connect_nodes_lock_held (h : NodesHub) (a : connect_await)
    (o i : nat) (e : edge) :
  pending_connection h = Some e ->
  (a <> AwaitTransports ->
   (connect_nodes p2p_port h a o i).1 = h
   /\ ((connect_nodes p2p_port h a o i).2 = ConnectSuspended AwaitProxies
       \/ (connect_nodes p2p_port h a o i).2 = ConnectSuspended AwaitLock))
  /\ connect_nodes p2p_port h AwaitTransports o i
     = if decide (is_Some (sender2proxy_transports h !! e)
                  /\ is_Some (proxy2receiver_transports h !! e))
       then (set_pending_connection None h, ConnectDone)
       else (h, ConnectSuspended AwaitTransports).
Proof.
  intros Hp. split.
  - intros Ha. destruct a; [| |done]; cbn [connect_nodes].
    + unfold connect_from_proxies, connect_from_lock. rewrite Hp.
      case_decide; cbn; auto.
    + unfold connect_from_lock. rewrite Hp. cbn. auto.
  - cbn [connect_nodes]. unfold connect_from_transports. rewrite Hp.
    destruct (decide (_ \/ _)) as [H1|H1], (decide (_ /\ _)) as [H2|H2];
      try done; exfalso.
    + destruct H2 as [[s Hs] [r Hr]]. destruct H1; congruence.
    + apply H1. destruct (sender2proxy_transports h !! e); [|by left].
      destruct (proxy2receiver_transports h !! e); [|by right].
      exfalso. apply H2. eauto.
Qed.

(** X13. Whatever [connect_nodes(out, in)] raises, it raises holding the
    lock it has just taken, with nothing else of the hub changed; and it
    raises [IndexError] exactly when it takes the lock, the edge is in
    neither table and [out] is not an index of [self.nodes]. *)
Theorem connect_nodes_raise_keeps_lock (h : NodesHub) (a : connect_await)
    (o i : nat) :
  (forall h' ex,
      connect_nodes p2p_port h a o i = (h', ConnectRaised ex) ->
      h' = set_pending_connection (Some (o, i)) h
      /\ pending_connection h = None
      /\ (ex = RuntimeError (o, i) \/ ex = IndexError))
  /\ (connect_nodes p2p_port h a o i
      = (set_pending_connection (Some (o, i)) h, ConnectRaised IndexError)
      <-> acquires_lock h a = true
          /\ sender2proxy_transports h !! (o, i) = None
          /\ proxy2receiver_transports h !! (o, i) = None
          /\ (nodes h <= o)%nat).
Proof.
  assert (Hlock : forall h' st,
             connect_from_lock p2p_port h o i = (h', st) ->
             match st with
             | ConnectRaised ex =>
                 h' = set_pending_connection (Some (o, i)) h
                 /\ pending_connection h = None
                 /\ (ex = RuntimeError (o, i)
                     /\ (is_Some (sender2proxy_transports h !! (o, i))
                         \/ is_Some (proxy2receiver_transports h !! (o, i)))
                     \/ ex = IndexError
                        /\ sender2proxy_transports h !! (o, i) = None
                        /\ proxy2receiver_transports h !! (o, i) = None
                        /\ (nodes h <= o)%nat)
             | _ => pending_connection h = None ->
                    sender2proxy_transports h !! (o, i) = None ->
                    proxy2receiver_transports h !! (o, i) = None ->
                    (o < nodes h)%nat
             end).
  { intros h' st. unfold connect_from_lock.
    destruct (pending_connection h) as [busy|] eqn:Hp.
    { intros [= <- <-]. done. }
    cbn [sender2proxy_transports proxy2receiver_transports
         set_pending_connection].
    case_decide as Hin.
    - intros [= <- <-]. auto.
    - assert (sender2proxy_transports h !! (o, i) = None
              /\ proxy2receiver_transports h !! (o, i) = None) as [Hs Hr].
      { destruct (sender2proxy_transports h !! (o, i)),
                 (proxy2receiver_transports h !! (o, i));
          try done; exfalso; apply Hin; eauto. }
      unfold connect_sender_to_proxy. cbn [nodes set_pending_connection].
      case_decide as Ho.
      + intros Hrun. destruct st as [a'| |ex]; try done.
        exfalso. eapply (connect_from_transports_not_raised _ ex).
        by rewrite Hrun.
      + intros [= <- <-]. split; [done|]. split; [done|]. right.
        repeat split; try done. lia. }
  split.
  - intros h' ex Hrun.
    assert (connect_from_lock p2p_port h o i = (h', ConnectRaised ex)) as Hl.
    { destruct a; cbn [connect_nodes] in Hrun.
      - unfold connect_from_proxies in Hrun. by case_decide.
      - done.
      - exfalso. eapply (connect_from_transports_not_raised _ ex).
        by rewrite Hrun. }
    apply Hlock in Hl as (-> & Hp & [[-> _]|[-> _]]); auto.
  - split.
    + intros Hrun.
      assert (connect_from_lock p2p_port h o i
              = (set_pending_connection (Some (o, i)) h,
                 ConnectRaised IndexError)
              /\ acquires_lock h a = true) as [Hl Hacq].
      { destruct a; cbn [connect_nodes acquires_lock] in *.
        - unfold connect_from_proxies in Hrun. case_decide as Hsrv; [done|].
          split; [done|]. apply Hlock in Hrun as (_ & Hp & _).
          rewrite bool_decide_eq_false_2, bool_decide_eq_true_2 by done.
          done.
        - split; [done|]. apply Hlock in Hrun as (_ & Hp & _).
          by rewrite bool_decide_eq_true_2.
        - exfalso. eapply (connect_from_transports_not_raised _ IndexError).
          by rewrite Hrun. }
      apply Hlock in Hl as (_ & _ & [[? _]|(_ & ? & ? & ?)]); done.
    + intros (Hacq & Hs & Hr & Ho).
      assert (pending_connection h = None
              /\ connect_nodes p2p_port h a o i
                 = connect_from_lock p2p_port h o i) as [Hp ->].
      { destruct a; cbn [connect_nodes acquires_lock] in *.
        - apply andb_true_iff in Hacq as [H1 H2].
          apply bool_decide_eq_true in H2.
          apply negb_true_iff, bool_decide_eq_false in H1.
          unfold connect_from_proxies. by rewrite decide_False.
        - by apply bool_decide_eq_true in Hacq.
        - done. }
      unfold connect_from_lock. rewrite Hp.
      cbn [sender2proxy_transports proxy2receiver_transports
           set_pending_connection].
      rewrite Hs, Hr. rewrite decide_False by (intros [[? ?]|[? ?]]; done).
      unfold connect_sender_to_proxy. cbn [nodes set_pending_connection].
      rewrite decide_False by lia. done.
Qed.

(** X14. How an edge comes up. With the listeners up, the lock free, the
    edge in neither table and [out] a node, [connect_nodes(out, in)] takes
    the lock, asks node [out] to add and to dial the proxy port of [in],
    starts the relay task and waits at its third loop. The connection a
    proxy then accepts is registered under (out, in); with that half alone
    [connect_nodes] keeps waiting; once [ProxyRelay.connection_made] has
    registered the other half it releases the lock and ends, both halves
    registered; a new [connect_nodes(out, in)] then raises the
    [RuntimeError]. *)
Theorem connect_nodes_handshake (h : NodesHub) (o i : nat) :
  ~ (proxy_servers h < nodes h)%nat ->
  pending_connection h = None ->
  sender2proxy_transports h !! (o, i) = None ->
  proxy2receiver_transports h !! (o, i) = None ->
  (o < nodes h)%nat ->
  let h1 := (connect_nodes p2p_port h AwaitProxies o i).1 in
  (connect_nodes p2p_port h AwaitProxies o i).2
  = ConnectSuspended AwaitTransports
  /\ pending_connection h1 = Some (o, i)
  /\ rpc_log h1
     = rpc_log h ++ [mkRpc o (get_proxy_port p2p_port h i) Add;
                     mkRpc o (get_proxy_port p2p_port h i) Onetry]
  /\ tasks h1 = tasks h ++ [TaskPending]
  /\ relay_tasks h1 !! (o, i) = Some (length (tasks h))
  /\ (forall np s buf r,
        let accepted := NodeProxy_connection_made h1 np s in
        let h2 := accepted.1.1 in
        let h3 := ProxyRelay_connection_made h2 (mkProxyRelay (o, i) buf) r in
        let h4 := set_pending_connection None h3 in
        accepted.2 = None
        /\ np_sender2receiver_pair accepted.1.2 = Some (o, i)
        /\ connect_nodes p2p_port h2 AwaitTransports o i
           = (h2, ConnectSuspended AwaitTransports)
        /\ connect_nodes p2p_port h3 AwaitTransports o i = (h4, ConnectDone)
        /\ sender2proxy_transports h4 !! (o, i) = Some s
        /\ proxy2receiver_transports h4 !! (o, i) = Some r
        /\ pending_connection h4 = None
        /\ (connect_nodes p2p_port h4 AwaitProxies o i).2
           = ConnectRaised (RuntimeError (o, i))).
Proof.
  intros Hsrv Hp Hs Hr Ho.
  assert (Hrun : connect_nodes p2p_port h AwaitProxies o i
                 = (connect_proxy_to_receiver
                      (set_rpc_log
                         (rpc_log h
                          ++ [mkRpc o (get_proxy_port p2p_port h i) Add;
                              mkRpc o (get_proxy_port p2p_port h i) Onetry])
                         (set_pending_connection (Some (o, i)) h)) o i,
                    ConnectSuspended AwaitTransports)).
  { cbn [connect_nodes]. unfold connect_from_proxies.
    rewrite decide_False by done. unfold connect_from_lock. rewrite Hp.
    cbn [sender2proxy_transports proxy2receiver_transports
         set_pending_connection].
    rewrite Hs, Hr. rewrite decide_False by (intros [[? ?]|[? ?]]; done).
    unfold connect_sender_to_proxy. cbn [nodes set_pending_connection].
    rewrite decide_True by done.
    unfold connect_from_transports. cbn. rewrite Hs.
    by rewrite decide_True by auto. }
  rewrite Hrun. cbn [fst snd]. cbv zeta.
  split; [done|]. split; [done|]. split; [done|]. split; [done|].
  split; [cbn; apply lookup_insert_eq|].
  intros np s buf r.
  unfold NodeProxy_connection_made, ProxyRelay_connection_made. cbn.
  split; [done|]. split; [done|].
  split; [|split; [|split; [|split; [|split]]]].
  - unfold connect_from_transports. cbn. rewrite Hr.
    by rewrite decide_True by auto.
  - unfold connect_from_transports. cbn. rewrite !lookup_insert_eq.
    by rewrite decide_False by (intros [?|?]; done).
  - apply lookup_insert_eq.
  - apply lookup_insert_eq.
  - done.
  - unfold connect_from_proxies. cbn. rewrite decide_False by done.
    unfold connect_from_lock. cbn. rewrite lookup_insert_eq.
    by rewrite decide_True by eauto.
Qed.

(** X15. Losing either connection of an edge takes the edge down. With both
    halves of (out, in) registered on transports of the hub,
    [connection_lost] of the [NodeProxy] of the edge, like that of its
    [ProxyRelay], leaves the edge in neither table and both transports
    closing; the lock is not touched. A [NodeProxy] that was never given an
    edge raises [TypeError] and changes nothing. *)
Theorem connection_lost_tears_down (h : NodesHub) (o i s r : nat)
    (buf : pyval) :
  sender2proxy_transports h !! (o, i) = Some s ->
  proxy2receiver_transports h !! (o, i) = Some r ->
  is_Some (transports h !! s) ->
  is_Some (transports h !! r) ->
  let lost := NodeProxy_connection_lost h (mkNodeProxy (Some (o, i)) buf) in
  lost.2 = None
  /\ edge_torn_down lost.1 (o, i) s r
  /\ pending_connection lost.1 = pending_connection h
  /\ ProxyRelay_connection_lost h (mkProxyRelay (o, i) buf) = lost.1
  /\ NodeProxy_connection_lost h (mkNodeProxy None buf) = (h, Some TypeError).
Proof.
  intros Hs Hr [ts Hts] [tr Htr]. cbv zeta.
  unfold NodeProxy_connection_lost, ProxyRelay_connection_lost. cbn.
  destruct (disconnect_nodes_removes h o i) as (Rs & Rr & _).
  destruct (disconnect_nodes_effect h o i) as (Hc & _ & _ & Hp & _).
  cbv zeta in *.
  split; [done|]. split; [|done].
  split; [done|]. split; [done|]. split.
  - rewrite Hc, decide_True by auto. by rewrite Hts.
  - rewrite Hc, decide_True by auto. by rewrite Htr.
Qed.

(** X11. What [disconnect_nodes(out, in)] does to the objects. The
    transports the two tables name for the edge are closing afterwards,
    with their write logs kept, and every other transport is as before;
    the relay task of the edge has taken a [cancel()], the other tasks are
    as before. The delays (also the one of this edge), the lock, the port
    map and the calls made to the nodes are untouched. *)
Theorem disconnect_nodes_closes (h : NodesHub) (o i : nat) :
  let h' := disconnect_nodes h o i in
  (forall t,
      transports h' !! t
      = if decide (sender2proxy_transports h !! (o, i) = Some t
                   \/ proxy2receiver_transports h !! (o, i) = Some t)
        then transport_close <$> transports h !! t
        else transports h !! t)
  /\ (forall k,
        tasks h' !! k
        = if decide (relay_tasks h !! (o, i) = Some k)
          then task_cancel <$> tasks h !! k
          else tasks h !! k)
  /\ node2node_delays h' = node2node_delays h
  /\ pending_connection h' = pending_connection h
  /\ ports2node_map h' = ports2node_map h
  /\ rpc_log h' = rpc_log h
  /\ nodes h' = nodes h
  /\ proxy_servers h' = proxy_servers h.
Proof. apply disconnect_nodes_effect. Qed.

(** X16. [disconnect_nodes(out, in)] leaves the entries of every other edge
    in the three tables as they are. *)
Theorem disconnect_nodes_spares_other_edges (h : NodesHub) (o i : nat)
    (e : edge) :
  e <> (o, i) ->
  let h' := disconnect_nodes h o i in
  sender2proxy_transports h' !! e = sender2proxy_transports h !! e
  /\ proxy2receiver_transports h' !! e = proxy2receiver_transports h !! e
  /\ relay_tasks h' !! e = relay_tasks h !! e.
Proof. apply disconnect_nodes_other. Qed.

End EdgesMore.

(** * The linked list of connections *)

Section LinkedList.

Variable h : NodesHub.

Abbreviation connections l := (linked_list_connections h (Some l)).

Lemma linked_list_two (x y : nat) (l : list nat) :
  connections (x :: y :: l) = (x, y) :: (y, x) :: connections (y :: l).
Proof. reflexivity. Qed.

Lemma linked_list_one (x : nat) : connections [x] = [].
Proof. reflexivity. Qed.

Lemma linked_list_length (l : list nat) :
  length (connections l) = (2 * (length l - 1))%nat.
Proof.
  induction l as [|x [|y l] IH]; [done..|].
  rewrite linked_list_two. cbn [length] in *. rewrite IH. lia.
Qed.

Lemma linked_list_elem (l : list nat) (a b : nat) :
  (a, b) ∈ connections l
  <-> exists k, (l !! k = Some a /\ l !! S k = Some b)
                \/ (l !! k = Some b /\ l !! S k = Some a).
Proof.
  induction l as [|x [|y l] IH].
  - split; [by intros ?%elem_of_nil | by intros [k [[? _]|[? _]]]].
  - rewrite linked_list_one. split; [by intros ?%elem_of_nil|].
    intros [k [[_ ?]|[_ ?]]]; done.
  - rewrite linked_list_two, !elem_of_cons, IH. split.
    + intros [[= -> ->]|[[= -> ->]|[k Hk]]].
      * exists 0%nat. by left.
      * exists 0%nat. by right.
      * by exists (S k).
    + intros [[|k] Hk].
      * cbn in Hk. destruct Hk as [[[= ->] [= ->]]|[[= ->] [= ->]]]; auto.
      * right. right. by exists k.
Qed.

Lemma linked_list_nodes (l : list nat) (a b : nat) :
  (a, b) ∈ connections l -> a ∈ l /\ b ∈ l.
Proof.
  rewrite linked_list_elem.
  intros [k [[Ha Hb]|[Hb Ha]]]; split; by eapply list_elem_of_lookup_2.
Qed.

Lemma linked_list_NoDup (l : list nat) :
  NoDup l -> NoDup (connections l).
Proof.
  induction l as [|x [|y l] IH]; intros Hl.
  - apply NoDup_nil_2.
  - apply NoDup_nil_2.
  - rewrite linked_list_two.
    apply NoDup_cons in Hl as [Hx Hl].
    assert (x <> y) by (intros ->; apply Hx; left).
    apply NoDup_cons. split.
    { rewrite elem_of_cons. intros [[= ? ?]|Hin]; [done|].
      apply linked_list_nodes in Hin as [? _]. done. }
    apply NoDup_cons. split.
    { intros Hin. apply linked_list_nodes in Hin as [_ ?]. done. }
    by apply IH.
Qed.

(** X17. The connections [sync_biconnect_nodes_as_linked_list] asks for.
    For a list of [n] nodes it creates [2 * (n - 1)] calls of
    [connect_nodes] (none for an empty list or a single node): (a, b) is
    among them exactly when [a] and [b] stand next to each other in the
    list, in either order; when no node is listed twice, no edge is asked
    for twice; and without an argument the list is [0 .. len(nodes) - 1]. *)
Theorem linked_list_connections_spec (l : list nat) :
  length (connections l) = (2 * (length l - 1))%nat
  /\ (forall a b,
        (a, b) ∈ connections l
        <-> exists k, (l !! k = Some a /\ l !! S k = Some b)
                      \/ (l !! k = Some b /\ l !! S k = Some a))
  /\ (NoDup l -> NoDup (connections l))
  /\ linked_list_connections h None = connections (seq 0 (nodes h))
  /\ (forall k, (S k < nodes h)%nat ->
        (k, S k) ∈ linked_list_connections h None
        /\ (S k, k) ∈ linked_list_connections h None).
Proof.
  split; [apply linked_list_length|].
  split; [apply linked_list_elem|].
  split; [apply linked_list_NoDup|].
  split; [done|].
  intros k Hk.
  change (linked_list_connections h None) with (connections (seq 0 (nodes h))).
  rewrite !linked_list_elem.
  split; exists k; [left|right];
    (split; apply lookup_seq; split; (done || lia)).
Qed.

End LinkedList.

(** * Termination of the scanner and the delay table *)

Section Termination.

Variable p2p_port : nat -> Z.
Variable hash256 : bytes -> bytes.

Lemma consumed_same_passes (g h : NodesHub) (buffer : bytes)
    (outs : list bytes) (buffer' : bytes) :
  (forall b, process_frame p2p_port hash256 g b
             = process_frame p2p_port hash256 h b) ->
  consumed p2p_port hash256 g buffer outs buffer' ->
  consumed p2p_port hash256 h buffer outs buffer'.
Proof.
  intros Hsame. induction 1 as [|buffer o rest outs buffer' Hstep _ IH].
  - apply consumed_nil.
  - eapply consumed_cons; [|exact IH]. by rewrite <- Hsame.
Qed.

(** X18. When no pass of the scan of a buffer reads a negative length (a
    pass reads the length field only when it finds more than 24 bytes),
    [process_buffer] ends, by a [return] or by raising, within as many
    passes as the buffer has bytes, plus one. *)
Theorem scanner_terminates (h : NodesHub) (buffer : bytes) (tid : nat) :
  (forall outs seen msglen,
      consumed p2p_port hash256 h buffer outs seen ->
      24 < Py.len seen ->
      Py.unpack_le_i32 (Py.slice (Some 16) (Some 20) seen) = Ok msglen ->
      0 <= msglen) ->
  (process_buffer p2p_port hash256 (S (length buffer)) h buffer tid).2
  <> Diverged.
Proof.
  assert (Hgen : forall fuel g buffer,
             (forall b, process_frame p2p_port hash256 g b
                        = process_frame p2p_port hash256 h b) ->
             (length buffer < fuel)%nat ->
             (forall outs seen msglen,
                 consumed p2p_port hash256 h buffer outs seen ->
                 24 < Py.len seen ->
                 Py.unpack_le_i32 (Py.slice (Some 16) (Some 20) seen)
                 = Ok msglen ->
                 0 <= msglen) ->
             (process_buffer p2p_port hash256 fuel g buffer tid).2
             <> Diverged).
  { induction fuel as [|fuel IH]; intros g b Hsame Hfuel Hpos; [lia|].
    rewrite process_buffer_S.
    destruct (process_frame p2p_port hash256 g b) as [v|out rest|e] eqn:Hstep;
      [done| |done].
    destruct (process_frame_written_inv _ _ _ _ _ _ Hstep)
      as (msglen & Hlen & Hgt & _ & _).
    assert (0 <= msglen)
      by (eapply (Hpos [] b); [apply consumed_nil|done|done]).
    pose proof (consumed_frame_shrinks _ _ _ _ _ _ _ Hstep Hlen ltac:(done)).
    apply IH.
    - intros b'. rewrite process_frame_write_to. apply Hsame.
    - unfold Py.len in *. lia.
    - intros outs seen n Hc. apply (Hpos (out :: outs)).
      eapply consumed_cons; [|exact Hc]. by rewrite <- Hsame. }
  intros Hpos. apply Hgen; [done | lia | exact Hpos].
Qed.

(** X19. Of two calls of [set_nodes_delay] for the same direction the last
    one decides: the entry afterwards is the last delay, or is absent when
    that delay is zero, as if the first call had not been made. *)
Theorem set_nodes_delay_last (h : NodesHub) (o i : nat) (d1 d2 : Q) :
  set_nodes_delay (set_nodes_delay h o i d1) o i d2 = set_nodes_delay h o i d2
  /\ node2node_delays (set_nodes_delay h o i d2) !! (o, i)
     = (if Qeq_bool d2 0 then None else Some d2).
Proof.
  unfold set_nodes_delay. split.
  - destruct (Qeq_bool d1 0), (Qeq_bool d2 0); cbn;
      unfold set_node2node_delays; cbn; f_equal.
    + apply delete_delete_eq.
    + apply insert_delete_eq.
    + apply delete_insert_eq.
    + apply insert_insert_eq.
  - destruct (Qeq_bool d2 0); cbn.
    + apply lookup_delete_eq.
    + apply lookup_insert_eq.
Qed.

End Termination.

(** * The further properties on sample data *)

(** X1 at a [version] message that advertises port 0, on a hub whose port
    map is empty. *)
Lemma zero_port_version_frame_witness :
  process_frame Sample.p2p_port Sample.hash256 (init 2)
    (Sample.version_header ++ Sample.version_payload 0 ++ [])
  = Written (take 20 Sample.version_header
             ++ Py.slice None (Some 4)
                  (Sample.hash256 (Sample.version_payload 0))
             ++ Sample.version_payload 0) [].
Proof.
  apply (zero_port_version_frame Sample.p2p_port Sample.hash256 (init 2)
           Sample.version_header (Sample.version_payload 0) []).
  - repeat split.
  - reflexivity.
Defined.

(** X2 at a [version] message with a payload of four bytes. *)
Lemma short_version_payload_raises_witness :
  process_frame Sample.p2p_port Sample.hash256 Sample.started_hub
    (Scenario.short_version_header ++ [x01; x02; x03; x04] ++ [])
  = Fail StructError.
Proof.
  destruct (short_version_payload_raises Sample.p2p_port Sample.hash256
              Sample.started_hub Scenario.short_version_header
              [x01; x02; x03; x04] []) as [H _].
  - repeat split.
  - simpl. lia.
  - exact H.
Defined.

(** X3 with the allocator [Scenario.far_p2p_port]: node 0 listens on 65534
    and its proxy on 65537. *)
Lemma wide_proxy_port_raises_witness :
  process_frame Scenario.far_p2p_port Sample.hash256
    (sync_start_proxies Scenario.far_p2p_port (init 2))
    (Sample.version_header ++ Sample.version_payload 65534 ++ [])
  = Fail StructError.
Proof.
  apply (wide_proxy_port_raises Scenario.far_p2p_port Sample.hash256
           (sync_start_proxies Scenario.far_p2p_port (init 2))
           Sample.version_header (Sample.version_payload 65534) []
           65534 0%nat).
  - repeat split.
  - reflexivity.
  - discriminate.
  - vm_compute. reflexivity.
  - vm_compute. intros [_ H]. apply H. reflexivity.
Defined.

(** X4 for the hub with its listeners up and the same hub with an open
    edge. *)
Lemma scanner_reads_only_ports_witness :
  process_frame Sample.p2p_port Sample.hash256 Sample.started_hub
    (Sample.version_frame 11000)
  = process_frame Sample.p2p_port Sample.hash256 Sample.linked_hub
      (Sample.version_frame 11000).
Proof.
  apply (scanner_reads_only_ports Sample.p2p_port Sample.hash256
           Sample.started_hub Sample.linked_hub eq_refl eq_refl).
Defined.

(** X5 at a [verack] followed by a [ping], with nothing behind them. *)
Lemma plain_frames_forwarded_witness :
  scanner_output Sample.p2p_port Sample.hash256 3 Sample.started_hub
    (Sample.verack_frame
     ++ (Scenario.ping_header ++ Scenario.ping_payload) ++ [])
  = [Sample.verack_frame; Scenario.ping_header ++ Scenario.ping_payload].
Proof.
  destruct (plain_frames_forwarded Sample.p2p_port Sample.hash256
              Sample.started_hub
              [(Sample.verack_frame, []);
               (Scenario.ping_header, Scenario.ping_payload)] [])
    as [H _].
  - do 2 (apply Forall_cons_2; [repeat split; discriminate|]).
    apply Forall_nil_2.
  - intros [|f0 [|f1 [|f2 before]]] f behind Heq; cbn in Heq.
    + injection Heq as <- <-. right. vm_compute. discriminate.
    + injection Heq as _ <- <-. left. vm_compute. discriminate.
    + discriminate.
    + discriminate.
  - simpl. lia.
  - exact (H 0%nat).
Defined.

(** X6 at a [version] message that advertises the port of node 0. *)
Lemma started_hub_advertises_proxy_port_witness :
  Py.unpack_be_u16
    (Py.slice (Some 70) (Some 72)
       (Py.slice None (Some 70) (Sample.version_payload 11000)
        ++ [Py.byte_of_Z (11003 / 256); Py.byte_of_Z 11003]
        ++ Py.slice (Some 72) None (Sample.version_payload 11000)))
  = Ok 11003.
Proof.
  destruct (started_hub_advertises_proxy_port Sample.p2p_port Sample.hash256
              (init 2) Sample.version_header (Sample.version_payload 11000)
              [] 11000 0%nat)
    as (_ & H & _).
  - unfold Sample.p2p_port. intros a b. lia.
  - reflexivity.
  - simpl. lia.
  - repeat split.
  - reflexivity.
  - discriminate.
  - left. reflexivity.
  - vm_compute. split; discriminate.
  - exact H.
Defined.

(** X8 at a [ping] whose first ten bytes arrive alone. *)
Lemma split_frame_forwarded_witness :
  NodeProxy_handle_received_data Sample.p2p_port Sample.hash256 2
    Sample.linked_hub
    (mkNodeProxy (Some (0, 1)%nat) (PyBytes (take 10 Scenario.ping_header)))
    AwaitDelay (drop 10 Scenario.ping_header ++ Scenario.ping_payload)
  = (write_to 1 (Scenario.ping_header ++ Scenario.ping_payload)
       Sample.linked_hub,
     mkNodeProxy (Some (0, 1)%nat) (PyBytes []), HandlerDone).
Proof.
  destruct (split_frame_forwarded Sample.p2p_port Sample.hash256
              Sample.linked_hub (0, 1)%nat 1
              Scenario.ping_header Scenario.ping_payload
              (take 10 Scenario.ping_header)
              (drop 10 Scenario.ping_header ++ Scenario.ping_payload))
    as [_ H].
  - repeat split. discriminate.
  - discriminate.
  - vm_compute. reflexivity.
  - reflexivity.
  - simpl. lia.
  - exact (H 0%nat).
Defined.


(** X12 when the lock is held for the edge (1, 0), of which nothing is
    registered yet. *)
Lemma connect_nodes_lock_held_witness :
  connect_nodes Sample.p2p_port
    (set_pending_connection (Some (1, 0)%nat) Sample.started_hub)
    AwaitTransports 0 1
  = (set_pending_connection (Some (1, 0)%nat) Sample.started_hub,
     ConnectSuspended AwaitTransports).
Proof.
  destruct (connect_nodes_lock_held Sample.p2p_port
              (set_pending_connection (Some (1, 0)%nat) Sample.started_hub)
              AwaitTransports 0 1 (1, 0)%nat) as [_ H].
  - reflexivity.
  - rewrite H. apply decide_False. vm_compute. intros [[? ?] _]. done.
Defined.

(** X14 for the edge (0, 1) on the hub of two nodes. *)
Lemma connect_nodes_handshake_witness :
  (connect_nodes Sample.p2p_port Scenario.idle_hub AwaitProxies 0 1).2
  = ConnectSuspended AwaitTransports.
Proof.
  destruct (connect_nodes_handshake Sample.p2p_port Scenario.idle_hub 0 1)
    as [H _].
  - simpl. lia.
  - reflexivity.
  - reflexivity.
  - reflexivity.
  - simpl. lia.
  - exact H.
Defined.

(** X15 for the edge (0, 1) of [Sample.linked_hub]. *)
Lemma connection_lost_tears_down_witness :
  edge_torn_down
    (NodeProxy_connection_lost Sample.linked_hub
       (mkNodeProxy (Some (0, 1)%nat) (PyBytes []))).1
    (0, 1)%nat 0 1.
Proof.
  destruct (connection_lost_tears_down Sample.linked_hub 0 1 0 1 (PyBytes []))
    as (_ & H & _).
  - vm_compute. reflexivity.
  - vm_compute. reflexivity.
  - eexists. reflexivity.
  - eexists. reflexivity.
  - exact H.
Defined.

(** X16: disconnecting (1, 0) leaves the edge (0, 1) of [Sample.linked_hub]
    registered. *)
Lemma disconnect_nodes_spares_other_edges_witness :
  sender2proxy_transports (disconnect_nodes Sample.linked_hub 1 0)
    !! (0, 1)%nat
  = sender2proxy_transports Sample.linked_hub !! (0, 1)%nat.
Proof.
  destruct (disconnect_nodes_spares_other_edges Sample.linked_hub 1 0
              (0, 1)%nat) as [H _].
  - discriminate.
  - exact H.
Defined.

(** X18 at a [ping] followed by twenty bytes ff, which no pass reads as a
    length. *)
Lemma scanner_terminates_witness :
  (process_buffer Sample.p2p_port Sample.hash256
     (S (length (Scenario.ping_header ++ Scenario.ping_payload
                 ++ replicate 20 xff)))
     Sample.started_hub
     (Scenario.ping_header ++ Scenario.ping_payload ++ replicate 20 xff)
     0).2
  = Returned (PyBytes (replicate 20 xff))
  /\ (process_buffer Sample.p2p_port Sample.hash256
        (S (length (Scenario.ping_header ++ Scenario.ping_payload
                    ++ replicate 20 xff)))
        Sample.started_hub
        (Scenario.ping_header ++ Scenario.ping_payload ++ replicate 20 xff)
        0).2
     <> Diverged.
Proof.
  split; [vm_compute; reflexivity|].
  apply (scanner_terminates Sample.p2p_port Sample.hash256
           Sample.started_hub
           (Scenario.ping_header ++ Scenario.ping_payload
            ++ replicate 20 xff) 0).
  intros outs seen msglen Hc Hgt Hu.
  inversion Hc as [|? out rest outs' ? Hstep Hc']; subst.
  - vm_compute in Hu. injection Hu as <-. lia.
  - vm_compute in Hstep. injection Hstep as <- <-.
    inversion Hc' as [|? out' rest' outs'' ? Hstep' Hc'']; subst.
    + vm_compute in Hgt. discriminate.
    + vm_compute in Hstep'. discriminate.
Defined.
